(** * gemma-2b_FT.ipynb: a model of the fine-tuning notebook

    The notebook is a straight-line script over external libraries.  The
    cells that carry logic of their own are embedded here as functions:
    Python exceptions become an explicit result type, the notebook's global
    namespace a finite map, Python sets [gset]s, data frames lists of
    indexed rows.  Library calls whose behaviour the script relies on are
    written out from the libraries' documented contracts and are marked as
    such where they are defined. *)

From Stdlib Require Import ZArith Ascii String List Lia.
From stdpp Require Import base option list gmap sets strings.

#[local] Set Warnings "-register-all".

Open Scope string_scope.
Open Scope list_scope.
Open Scope nat_scope.

(** ** Python exceptions and the result monad *)

Inductive exn : Type :=
  | NameError (name : string)
  | IndexError
  | KeyError (key : string)
  | ValueError (msg : string)
  | TypeError (msg : string)
  | OSError (msg : string)
  | UnicodeEncodeError.

Inductive result (A : Type) : Type :=
  | Ok (a : A)
  | Raise (e : exn).
Arguments Ok {A} a.
Arguments Raise {A} e.

#[global] Instance result_ret : MRet result := fun A a => Ok a.
#[global] Instance result_bind : MBind result := fun A B f m =>
  match m with
  | Ok a => f a
  | Raise e => Raise e
  end.

Definition is_ok {A} (r : result A) : bool :=
  match r with Ok _ => true | Raise _ => false end.

(** [for x in xs: acc = body acc x], stopping at the first exception. *)
Fixpoint for_each {A S} (body : S → A → result S) (xs : list A) (acc : S)
  : result S :=
  match xs with
  | [] => Ok acc
  | x :: xs' => acc' ← body acc x; for_each body xs' acc'
  end.

(** ** Python sequence and string primitives *)

Module Py.

(** [xs[i]] for [i >= 0]. *)
Definition index {A} (xs : list A) (i : nat) : result A :=
  match xs !! i with
  | Some x => Ok x
  | None => Raise IndexError
  end.

(** [xs[-k]] for [k >= 1]: counted from the end. *)
Definition index_neg {A} (xs : list A) (k : nat) : result A :=
  if decide (1 ≤ k ≤ length xs) then index xs (length xs - k)
  else Raise IndexError.

(** [s.split(sep)] for a one-character separator: the maximal runs
    between separators, empty runs included, never an empty list. *)
Fixpoint split (sep : ascii) (s : string) : list string :=
  match s with
  | EmptyString => [EmptyString]
  | String c s' =>
      if decide (c = sep) then EmptyString :: split sep s'
      else match split sep s' with
           | [] => [String c EmptyString]
           | seg :: segs => String c seg :: segs
           end
  end.

(** [sep in s] for a one-character [sep]. *)
Fixpoint contains (sep : ascii) (s : string) : bool :=
  match s with
  | EmptyString => false
  | String c s' => if decide (c = sep) then true else contains sep s'
  end.

(** [template.format] called with keyword arguments only.  Text outside
    braces is copied, a doubled brace stands for one brace, and [{field}]
    is replaced by the value for the field.  A field that is empty or a
    decimal number asks for a positional argument, of which there are none;
    any other text is looked up among the keywords.  Conversions ([!r]),
    format specifications ([:>5]), attribute and index access and digits
    outside ASCII are not covered: a field is read here as a plain name. *)
Definition is_digit (c : ascii) : bool :=
  (48 <=? nat_of_ascii c) && (nat_of_ascii c <=? 57).

Fixpoint all_digits (s : string) : bool :=
  match s with
  | EmptyString => true
  | String c s' => is_digit c && all_digits s'
  end.

Fixpoint digits_value (acc : N) (s : string) : N :=
  match s with
  | EmptyString => acc
  | String c s' => digits_value (10 * acc + N.of_nat (nat_of_ascii c - 48)) s'
  end.

(** The largest index the interpreter reads. *)
Definition ssize_max : N := 9223372036854775807.

Definition get_field (kwargs : list (string * string)) (field : string)
  : result string :=
  if all_digits field
  then if (digits_value 0 field <=? ssize_max)%N then Raise IndexError
       else Raise (ValueError "Too many decimal digits in format string")
  else match list_find (λ kv, kv.1 = field) kwargs with
       | Some (_, (_, v)) => Ok v
       | None => Raise (KeyError field)
       end.

(** [field] is the text read so far inside braces, if the scan is inside. *)
Fixpoint format_from (field : option string) (kwargs : list (string * string))
    (template : string) : result string :=
  match template with
  | EmptyString =>
      match field with
      | None => Ok EmptyString
      | Some _ => Raise (ValueError "expected '}' before end of string")
      end
  | String c rest =>
      match field with
      | None =>
          if decide (c = "{"%char) then
            match rest with
            | String d rest' =>
                if decide (d = "{"%char)
                then out ← format_from None kwargs rest'; Ok (String "{" out)
                else format_from (Some EmptyString) kwargs rest
            | EmptyString => format_from (Some EmptyString) kwargs rest
            end
          else if decide (c = "}"%char) then
            match rest with
            | String d rest' =>
                if decide (d = "}"%char)
                then out ← format_from None kwargs rest'; Ok (String "}" out)
                else Raise (ValueError "Single '}' encountered in format string")
            | EmptyString =>
                Raise (ValueError "Single '}' encountered in format string")
            end
          else out ← format_from None kwargs rest; Ok (String c out)
      | Some name =>
          if decide (c = "}"%char)
          then v ← get_field kwargs name;
               out ← format_from None kwargs rest; Ok (v +:+ out)
          else if decide (c = "{"%char)
               then Raise (ValueError "unexpected '{' in field name")
               else format_from (Some (name +:+ String c EmptyString)) kwargs rest
      end
  end.

Definition format (template : string) (kwargs : list (string * string))
  : result string :=
  format_from None kwargs template.

(** [set.add] and [set.remove]; the latter raises when the key is absent. *)
Definition set_add (x : string) (s : gset string) : gset string :=
  {[ x ]} ∪ s.

Definition set_remove (x : string) (s : gset string) : result (gset string) :=
  if decide (x ∈ s) then Ok (s ∖ {[ x ]}) else Raise (KeyError x).

End Py.

(** ** Cell 4.2: target-module discovery *)

Module LoRA.

(** A module object, as far as [isinstance] looks at it: the names of the
    classes in the method resolution order of its type. *)
Record module := { mro : list string }.

Definition isinstance (m : module) (cls : string) : bool :=
  bool_decide (cls ∈ mro m).

(** What [model.named_modules()] yields, in traversal order. *)
Record model := { named_modules : list (string * module) }.

Definition Linear4bit : string := "Linear4bit".
Definition lm_head : string := "lm_head".

(** [names[0] if len(names) == 1 else names[-1]] with
    [names = name.split('.')]. *)
Definition segment (name : string) : result string :=
  let names := Py.split "." name in
  if decide (length names = 1) then Py.index names 0
  else Py.index_neg names 1.

(** One iteration of the loop: both [if]s are at the level of the loop
    body, so the head name is looked for after every sublayer. *)
Definition visit (lora_module_names : gset string) (nm : string * module)
  : result (gset string) :=
  let '(name, m) := nm in
  added ← (if isinstance m Linear4bit
           then seg ← segment name; Ok (Py.set_add seg lora_module_names)
           else Ok lora_module_names);
  if decide (lm_head ∈ added) then Py.set_remove lm_head added
  else Ok added.

Definition collect (mdl : model) : result (gset string) :=
  for_each visit (named_modules mdl) ∅.

(** [list(lora_module_names)]: the elements in the set's own order. *)
Definition find_all_linear_names (mdl : model) : result (list string) :=
  names ← collect mdl; Ok (elements names).

(** The names the loop is meant to gather, as a set comprehension. *)
Definition quantized_segments (nms : list (string * module)) : gset string :=
  list_to_set
    (omap (λ nm, if isinstance nm.2 Linear4bit
                 then match segment nm.1 with Ok s => Some s | Raise _ => None end
                 else None) nms).

End LoRA.

(** The specification's wording of the segment: [seg] is the last
    dot-separated segment of [name] when it holds no dot and [name] is either
    [seg] alone or ends in a dot followed by [seg]. *)
Definition is_last_segment (name seg : string) : Prop :=
  Py.contains "." seg = false ∧
  (name = seg ∨ ∃ p, name = p +:+ String "." seg).

(** ** JSON values and the [json] encoder *)

Module Json.

(** A JSON document; a number is kept as the literal Python prints for it. *)
Inductive json : Type :=
  | JNull
  | JBool (b : bool)
  | JNum (literal : string)
  | JStr (s : string)
  | JArr (items : list json)
  | JObj (members : list (string * json)).

Definition quote : ascii := "034"%char.
Definition backslash : ascii := "092"%char.
Definition newline : ascii := "010"%char.

Definition hex_digit (n : nat) : ascii :=
  match n with
  | 0 => "0" | 1 => "1" | 2 => "2" | 3 => "3" | 4 => "4" | 5 => "5"
  | 6 => "6" | 7 => "7" | 8 => "8" | 9 => "9" | 10 => "a" | 11 => "b"
  | 12 => "c" | 13 => "d" | 14 => "e" | _ => "f"
  end%char.

(** [ESCAPE_DCT] of [json.encoder]: the quote, the backslash and the control
    characters below [0x20] are escaped, every other character is itself. *)
Definition escape_char (c : ascii) : string :=
  if decide (c = quote) then String backslash (String quote "")
  else if decide (c = backslash) then String backslash (String backslash "")
  else if decide (c = "008"%char) then String backslash "b"
  else if decide (c = "012"%char) then String backslash "f"
  else if decide (c = "010"%char) then String backslash "n"
  else if decide (c = "013"%char) then String backslash "r"
  else if decide (c = "009"%char) then String backslash "t"
  else if decide (nat_of_ascii c < 32)
       then String backslash
              (String "u" (String "0" (String "0"
                 (String (hex_digit (nat_of_ascii c / 16))
                    (String (hex_digit (nat_of_ascii c mod 16)) "")))))
       else String c "".

Fixpoint escape (s : string) : string :=
  match s with
  | EmptyString => EmptyString
  | String c s' => escape_char c +:+ escape s'
  end.

(** [py_encode_basestring], the string encoder chosen by
    [ensure_ascii=False]: the escaped text between quotes. *)
Definition py_encode_basestring (s : string) : string :=
  String quote (escape s +:+ String quote "").

Fixpoint spaces (n : nat) : string :=
  match n with
  | 0 => EmptyString
  | S n' => String " " (spaces n')
  end.

Fixpoint join (sep : string) (parts : list string) : string :=
  match parts with
  | [] => EmptyString
  | [part] => part
  | part :: parts' => part +:+ sep +:+ join sep parts' 
  end.

(** [newline_indent] at a nesting level, for [indent=k]. *)
Definition newline_indent (indent level : nat) : string :=
  String newline (spaces (indent * level)).

(** The encoder with an integer [indent]: items on lines of their own,
    separated by a comma, a key from its value by a colon and a space; an
    empty array or object is written closed. *)
Fixpoint encode (indent level : nat) (j : json) : string :=
  match j with
  | JNull => "null"
  | JBool true => "true"
  | JBool false => "false"
  | JNum literal => literal
  | JStr s => py_encode_basestring s
  | JArr [] => "[]"
  | JArr items =>
      "[" +:+ newline_indent indent (S level)
      +:+ join ("," +:+ newline_indent indent (S level))
               (List.map (encode indent (S level)) items)
      +:+ newline_indent indent level +:+ "]"
  | JObj [] => "{}"
  | JObj members =>
      "{" +:+ newline_indent indent (S level)
      +:+ join ("," +:+ newline_indent indent (S level))
               (List.map (λ kv, py_encode_basestring (fst kv) +:+ ": "
                                +:+ encode indent (S level) (snd kv))
                         members)
      +:+ newline_indent indent level +:+ "}"
  end.

End Json.

(** ** Cell 3.1: loading and converting the data set *)

Module Dataset.

(** The Python values the cell handles: JSON data, set objects, and library
    objects that are only passed around. *)
Inductive value : Type :=
  | VJson (j : Json.json)
  | VSet (elems : list value)
  | VObject (what : string).

Definition hashable (v : value) : bool :=
  match v with
  | VJson (Json.JArr _) | VJson (Json.JObj _) | VSet _ => false
  | _ => true
  end.

(** A set display [{e1, ..., en}] of values already evaluated. *)
Definition set_display (elems : list value) : result value :=
  if forallb hashable elems then Ok (VSet elems)
  else Raise (TypeError "unhashable type").

(** Names of Python's built-in functions and constants (the exception
    classes, none of which has a one-letter name, are left out). *)
Definition builtin_names : list string :=
  ["abs"; "aiter"; "all"; "anext"; "any"; "ascii"; "bin"; "bool";
   "breakpoint"; "bytearray"; "bytes"; "callable"; "chr"; "classmethod";
   "compile"; "complex"; "delattr"; "dict"; "dir"; "divmod"; "enumerate";
   "eval"; "exec"; "filter"; "float"; "format"; "frozenset"; "getattr";
   "globals"; "hasattr"; "hash"; "help"; "hex"; "id"; "input"; "int";
   "isinstance"; "issubclass"; "iter"; "len"; "list"; "locals"; "map";
   "max"; "memoryview"; "min"; "next"; "object"; "oct"; "open"; "ord";
   "pow"; "print"; "property"; "range"; "repr"; "reversed"; "round"; "set";
   "setattr"; "slice"; "sorted"; "staticmethod"; "str"; "sum"; "super";
   "tuple"; "type"; "vars"; "zip"; "__import__"; "True"; "False"; "None";
   "Ellipsis"; "NotImplemented"; "__debug__"].

(** Reading a bare name: the notebook's globals, then the built-ins. *)
Definition load_name (globals : gmap string value) (name : string)
  : result value :=
  match globals !! name with
  | Some v => Ok v
  | None => if decide (name ∈ builtin_names) then Ok (VObject "builtin")
            else Raise (NameError name)
  end.

(** The globals bound by the cells that run before the conversion loop
    (1.2, 2.1, 2.2 and the opening lines of 3.1), in order of binding. *)
Definition globals_before_loop (data : list Json.json) : gmap string value :=
  list_to_map
    [("login", VObject "function");
     ("hf_token", VJson (Json.JStr "hf_token"));
     ("torch", VObject "module");
     ("BitsAndBytesConfig", VObject "class");
     ("bnb_config", VObject "BitsAndBytesConfig");
     ("AutoTokenizer", VObject "class");
     ("AutoModelForCausalLM", VObject "class");
     ("model", VObject "GemmaForCausalLM");
     ("tokenizer", VObject "GemmaTokenizerFast");
     ("input_text", VJson (Json.JStr "Ask a question about Overfitting/Underfitting."));
     ("input_ids", VObject "BatchEncoding");
     ("outputs", VObject "Tensor");
     ("json", VObject "module");
     ("pd", VObject "module");
     ("dataset", VJson (Json.JStr "assets/dataset/dataset_5k.json"));
     ("f", VObject "TextIOWrapper");
     ("data", VJson (Json.JArr data));
     ("converted_data", VObject "list")].

Record loop_state := {
  globals : gmap string value;
  converted_data : list value
}.

(** The body of [for item in data]: the display [{ v }] is evaluated, bound
    to [converted_item] and appended. *)
Definition convert_item (st : loop_state) (item : Json.json) : result loop_state :=
  let g1 := <["item" := VJson item]> (globals st) in
  v ← load_name g1 "v";
  converted_item ← set_display [v];
  Ok {| globals := <["converted_item" := converted_item]> g1;
        converted_data := converted_data st ++ [converted_item] |}.

Definition convert_loop (g : gmap string value) (data : list Json.json)
  : result loop_state :=
  for_each convert_item data {| globals := g; converted_data := [] |}.

(** What the encoder accepts: JSON data; a set is not serializable. *)
Definition serializable (v : value) : result Json.json :=
  match v with
  | VJson j => Ok j
  | VSet _ => Raise (TypeError "Object of type set is not JSON serializable")
  | VObject _ => Raise (TypeError "Object is not JSON serializable")
  end.

Fixpoint serializable_list (vs : list value) : result (list Json.json) :=
  match vs with
  | [] => Ok []
  | v :: vs' =>
      j ← serializable v; js ← serializable_list vs'; Ok (j :: js)
  end.

(** [json.dumps(v, indent=k, ensure_ascii=False)] of one value and of a
    list of values. *)
Definition dumps (indent : nat) (v : value) : result string :=
  j ← serializable v; Ok (Json.encode indent 0 j).

Definition dumps_list (indent : nat) (vs : list value) : result string :=
  js ← serializable_list vs; Ok (Json.encode indent 0 (Json.JArr js)).

Definition output_file : string := "/content/dataset_2k_prompt_completion.json".

(** [with open(output_file, 'w', encoding='utf-8') as f:
       json.dump(converted_data, f, indent=2, ensure_ascii=False)]
    over a file system given as a map from paths to contents: what the
    statement leaves when it runs to its end.  The ways it can stop short
    (the file cannot be opened, a text cannot be encoded) and what they
    leave behind are in [Dump.write_file]. *)
Definition write_converted (converted : list value) (fs : gmap string string)
  : result (gmap string string) :=
  text ← dumps_list 2 converted; Ok (<[output_file := text]> fs).

Record cell_result (DF : Type) := {
  files : gmap string string;
  stdout : list string;
  main_df : DF
}.
Arguments files {DF}.
Arguments stdout {DF}.
Arguments main_df {DF}.

(** The cell from the loop on.  [read_json] stands for [pd.read_json]
    applied to the contents of the written file. *)
Definition dataset_cell {DF} (read_json : string → result DF)
    (data : list Json.json) (fs : gmap string string)
  : result (cell_result DF) :=
  st ← convert_loop (globals_before_loop data) data;
  first ← Py.index (converted_data st) 0;
  shown ← dumps 2 first;
  fs' ← write_converted (converted_data st) fs;
  text ← match fs' !! output_file with
         | Some text => Ok text
         | None => Raise (ValueError "File not found")
         end;
  df ← read_json text;
  Ok {| files := fs';
        stdout := ["Example:"; shown];
        main_df := df |}.

(** A converted record, as the notebook's saved output shows one. *)
Definition record (prompt completion : string) : value :=
  VJson (Json.JObj [("prompt", Json.JStr prompt);
                    ("completion", Json.JStr completion)]).

End Dataset.

(** ** Library contracts the data cells rely on *)

(** numpy's generator, as far as [train_test_split] uses it: a state built
    from an integer seed, and [permutation n], a rearrangement of
    [0 .. n-1] determined by the state. *)
Class NumpyRandom := {
  rng : Type;
  RandomState : Z → rng;
  permutation : rng → nat → list nat;
  permutation_perm : ∀ g n, permutation g n ≡ₚ seq 0 n
}.

(** ** Data frames *)

Module Pandas.

(** A data frame is its rows in order, each under its index label. *)
Abbreviation dataframe R := (list (nat * R)).

(** A frame built from a list of records gets the labels [0 .. n-1]. *)
Definition from_records {R} (records : list R) : dataframe R :=
  zip (seq 0 (length records)) records.

(** Positional selection of rows ([iloc]); a position out of range raises. *)
Definition take_rows {R} (df : dataframe R) (positions : list nat)
  : result (dataframe R) :=
  for_each (λ acc i, row ← Py.index df i; Ok (acc ++ [row])) positions [].

End Pandas.

(** ** scikit-learn's [train_test_split] *)

Module Sklearn.

(** [random_state]: [None] or an integer seed. *)
Inductive random_state : Type :=
  | RSNone
  | RSInt (seed : Z).

(** A float fraction [num/den].  The notebook passes the literals [0.2] and
    [0.5]; in binary floating point [ceil(0.5 * n)] is exact, and
    [ceil(0.2 * n)] equals the ceiling of [n/5] for every [n] below
    [2^50], so the sizes are computed here over the rationals.  For other
    fractions the product the library rounds can lie above the rational
    one ([0.07 * 100]), and nothing is stated about them below. *)
Record fraction := { num : nat; den : nat }.

Definition ceil_mul (f : fraction) (n : nat) : nat :=
  (n * num f + den f - 1) / den f.

(** A float [test_size] has to lie strictly between 0 and 1. *)
Definition in_range (f : fraction) : bool :=
  (0 <? num f) && (num f <? den f).

Section with_rng.
Context `{NumpyRandom}.

(** [check_random_state]: the process-wide generator for [None], a fresh
    generator for an integer seed. *)
Definition check_random_state (global : rng) (rs : random_state) : rng :=
  match rs with
  | RSNone => global
  | RSInt seed => RandomState seed
  end.

(** [train_test_split(df, test_size=f, random_state=rs)] with the train
    size left to its default, as the library documents it: a test size
    outside (0, 1) is refused; the test part has [ceil(f * n)] rows, the
    train part the rest; an empty train part is refused; the test rows are
    those at the first [n_test] positions of the permutation, the train
    rows those at the following [n_train]. *)
Definition train_test_split {R} (global : rng) (df : Pandas.dataframe R)
    (test_size : fraction) (rs : random_state)
  : result (Pandas.dataframe R * Pandas.dataframe R) :=
  let n_samples := length df in
  let n_test := ceil_mul test_size n_samples in
  let n_train := n_samples - n_test in
  if negb (in_range test_size)
  then Raise (ValueError "test_size should be a float in the (0, 1) range")
  else if decide (n_train = 0)
  then Raise (ValueError "the resulting train set will be empty")
  else
    let perm := permutation (check_random_state global rs) n_samples in
    let ind_test := take n_test perm in
    let ind_train := take n_train (drop n_test perm) in
    train ← Pandas.take_rows df ind_train;
    test ← Pandas.take_rows df ind_test;
    Ok (train, test).

End with_rng.

End Sklearn.

(** ** Cells 3.2 and 4.5: partitioning and the trainer's datasets *)

Module Pipeline.

Record partitions (R : Type) := {
  train_data : Pandas.dataframe R;
  temp_data : Pandas.dataframe R;
  eval_data : Pandas.dataframe R;
  test_data : Pandas.dataframe R
}.
Arguments train_data {R}.
Arguments temp_data {R}.
Arguments eval_data {R}.
Arguments test_data {R}.

Definition test_size_1 : Sklearn.fraction := {| Sklearn.num := 1; Sklearn.den := 5 |}.
Definition test_size_2 : Sklearn.fraction := {| Sklearn.num := 1; Sklearn.den := 2 |}.
Definition random_state : Sklearn.random_state := Sklearn.RSInt 42.

Section with_rng.
Context `{NumpyRandom}.

(** Cell 3.2.  [global] is the state of the process-wide generator when
    the cell runs. *)
Definition split_cell {R} (global : rng) (main_df : Pandas.dataframe R)
  : result (partitions R) :=
  '(train, temp) ← Sklearn.train_test_split global main_df test_size_1 random_state;
  '(eval, test) ← Sklearn.train_test_split global temp test_size_2 random_state;
  Ok {| train_data := train; temp_data := temp;
        eval_data := eval; test_data := test |}.

End with_rng.

(** [Dataset.from_pandas] keeps the rows of the frame. *)
Definition from_pandas {R} (df : Pandas.dataframe R) : list (nat * R) := df.

(** The data the trainer is constructed with in cell 4.5. *)
Record trainer (R : Type) := {
  train_dataset : list (nat * R);
  eval_dataset : list (nat * R)
}.
Arguments train_dataset {R}.
Arguments eval_dataset {R}.

Definition trainer_cell {R} (p : partitions R) : trainer R :=
  {| train_dataset := from_pandas (train_data p);
     eval_dataset := from_pandas (temp_data p) |}.

End Pipeline.

(** ** Cells 4.5 and 4.6: the training budget *)

Module Trainer.

(** The arguments of [TrainingArguments] that steer the loop; [max_steps] is
    [-1] when it is not given. *)
Record TrainingArguments := {
  per_device_train_batch_size : nat;
  gradient_accumulation_steps : nat;
  eval_steps : nat;
  num_train_epochs : nat;
  max_steps : Z;
  logging_steps : nat
}.

Definition training_arguments : TrainingArguments :=
  {| per_device_train_batch_size := 8;
     gradient_accumulation_steps := 1;
     eval_steps := 10;
     num_train_epochs := 1;
     max_steps := 250;
     logging_steps := 10 |}.

(** A record of the log history: a training loss or an evaluation loss, under
    the step at which it was written. *)
Inductive log_record : Type :=
  | LossLog (step : nat)
  | EvalLog (step : nat)
  | TrainSummary (step : nat).

Record state := {
  global_step : nat;
  log_history : list log_record
}.

Definition ceil_div (a b : nat) : nat := (a + b - 1) / b.

(** Batches in one pass over [n] examples, and optimizer updates in it. *)
Definition len_dataloader (args : TrainingArguments) (n : nat) : nat :=
  ceil_div n (per_device_train_batch_size args).

Definition updates_per_epoch (args : TrainingArguments) (n : nat) : nat :=
  ceil_div (len_dataloader args n) (gradient_accumulation_steps args).

Definition num_update_steps_per_epoch (args : TrainingArguments) (n : nat) : nat :=
  max (updates_per_epoch args n) 1.

(** The library's set-up of the loop, as its documentation has it: a
    positive [max_steps] is the total number of steps and overrides
    [num_train_epochs], the data being gone through again as often as it
    takes; otherwise the epochs decide. *)
Definition total_steps (args : TrainingArguments) (n : nat) : nat :=
  if (0 <? max_steps args)%Z then Z.to_nat (max_steps args)
  else num_train_epochs args * num_update_steps_per_epoch args n.

Definition epochs (args : TrainingArguments) (n : nat) : nat :=
  if (0 <? max_steps args)%Z
  then Z.to_nat (max_steps args) / num_update_steps_per_epoch args n
       + (if 0 <? Z.to_nat (max_steps args) mod num_update_steps_per_epoch args n
          then 1 else 0)
  else num_train_epochs args.

(** What is written at a step: the training loss every [logging_steps], then
    the evaluation loss every [eval_steps]. *)
Definition records_at (args : TrainingArguments) (step : nat) : list log_record :=
  (if decide (step mod logging_steps args = 0) then [LossLog step] else [])
  ++ (if decide (step mod eval_steps args = 0) then [EvalLog step] else []).

(** One optimizer update and the callbacks after it. *)
Definition update_step (args : TrainingArguments) (st : state) : state :=
  {| global_step := S (global_step st);
     log_history := log_history st ++ records_at args (S (global_step st)) |}.

(** The updates of one epoch; the flag says that the step budget is used up. *)
Fixpoint epoch_loop (args : TrainingArguments) (budget updates : nat) (st : state)
  : state * bool :=
  match updates with
  | 0 => (st, false)
  | S updates' =>
      let st' := update_step args st in
      if decide (budget ≤ global_step st') then (st', true)
      else epoch_loop args budget updates' st'
  end.

(** The epochs; an epoch without a single batch ends the training. *)
Fixpoint training_loop (args : TrainingArguments) (budget per_epoch epochs : nat)
    (st : state) : state :=
  match epochs with
  | 0 => st
  | S epochs' =>
      let '(st', stop) := epoch_loop args budget per_epoch st in
      if stop || bool_decide (per_epoch = 0) then st'
      else training_loop args budget per_epoch epochs' st'
  end.

(** When the loop is left the summary of the run is written. *)
Definition finish (st : state) : state :=
  {| global_step := global_step st;
     log_history := log_history st ++ [TrainSummary (global_step st)] |}.

(** [trainer.train()] on a train set of [n] examples, on one device. *)
Definition train (args : TrainingArguments) (n : nat) : state :=
  finish
    (training_loop args (total_steps args n) (updates_per_epoch args n)
       (epochs args n) {| global_step := 0; log_history := [] |}).

(** The steps under which a training loss was written. *)
Definition loss_steps (st : state) : list nat :=
  omap (λ r, match r with LossLog step => Some step | _ => None end)
       (log_history st).

(** The state after [g] updates. *)
Definition state_at (args : TrainingArguments) (g : nat) : state :=
  {| global_step := g;
     log_history := flat_map (records_at args) (seq 1 g) |}.

End Trainer.

(** ** Cell 6: qualitative generation *)

(** A tokenizer, as far as [get_completion] uses one: the ids of a text with
    the special tokens added, the text of a list of ids, and which ids are
    special.  The text of a list of ids is the texts of its parts in a
    row. *)
Class Tokenizer := {
  token : Type;
  is_special : token → bool;
  tokenize : string → list token;
  detokenize : list token → string;
  eos_token_id : token;
  detokenize_app : ∀ ids1 ids2,
    detokenize (ids1 ++ ids2) = detokenize ids1 +:+ detokenize ids2
}.

(** A decoder-only language model: [generate] returns one row per input
    row, each the input ids followed by at most [max_new_tokens] new ones;
    with [do_sample=True] the new ones depend on the sampler's state. *)
Class CausalLM `{Tokenizer} := {
  sampler : Type;
  generate : sampler → list token → nat → token → list (list token);
  generate_extends : ∀ smp ids max_new_tokens pad,
    ∃ new rest, generate smp ids max_new_tokens pad = (ids ++ new) :: rest ∧
                length new ≤ max_new_tokens
}.

Module Generation.

(** [tokenizer.decode(ids, skip_special_tokens=...)]. *)
Definition decode `{Tokenizer} (ids : list token) (skip_special_tokens : bool)
  : string :=
  detokenize (if skip_special_tokens
              then filter (λ t, is_special t = false) ids
              else ids).

Definition prompt_template : string := "
  <start_of_turn>
   user
   {query}
   <end_of_turn>

   <start_of_turn>model
  ".

(** The two parts of the template around the placeholder. *)
Definition template_head : string := "
  <start_of_turn>
   user
   ".

Definition template_tail : string := "
   <end_of_turn>

   <start_of_turn>model
  ".

Definition get_completion `{CausalLM} (smp : sampler) (query : string)
  : result string :=
  prompt ← Py.format prompt_template [("query", query)];
  let encodeds := tokenize prompt in
  let generated_ids := generate smp encodeds 1000 eos_token_id in
  first ← Py.index generated_ids 0;
  Ok (decode first true).

End Generation.

(** A tokenizer and a model for running [get_completion]: the tokens are
    Gemma's control tokens and single bytes, and the model always continues
    with the same question. *)
Module Toy.

Inductive toy_token : Type :=
  | Bos
  | Eos
  | StartOfTurn
  | EndOfTurn
  | Byte (c : ascii).

Definition special (t : toy_token) : bool :=
  match t with Byte _ => false | _ => true end.

Definition text (t : toy_token) : string :=
  match t with
  | Bos => "<bos>"
  | Eos => "<eos>"
  | StartOfTurn => "<start_of_turn>"
  | EndOfTurn => "<end_of_turn>"
  | Byte c => String c EmptyString
  end.

(** [skip] counts the characters of a marker still to be passed over. *)
Fixpoint scan (skip : nat) (s : string) : list toy_token :=
  match s with
  | EmptyString => []
  | String c rest =>
      match skip with
      | S skip' => scan skip' rest
      | 0 =>
          if String.prefix "<start_of_turn>" s then StartOfTurn :: scan 14 rest
          else if String.prefix "<end_of_turn>" s then EndOfTurn :: scan 12 rest
          else Byte c :: scan 0 rest
      end
  end.

Fixpoint texts (ids : list toy_token) : string :=
  match ids with
  | [] => EmptyString
  | t :: ids' => text t +:+ texts ids'
  end.

Definition continuation : list toy_token :=
  scan 0 "What causes overfitting and how can it be prevented?" ++ [Eos].

End Toy.

(** ** The cells again, with their surroundings as parameters *)

(** Cell 3.1 from the loop on, run in an arbitrary global namespace [g]
    instead of the one the preceding cells leave behind. *)
Definition dataset_cell_in {DF} (g : gmap string Dataset.value)
    (read_json : string → result DF)
    (data : list Json.json) (fs : gmap string string)
  : result (Dataset.cell_result DF) :=
  st ← Dataset.convert_loop g data;
  first ← Py.index (Dataset.converted_data st) 0;
  shown ← Dataset.dumps 2 first;
  fs' ← Dataset.write_converted (Dataset.converted_data st) fs;
  text ← match fs' !! Dataset.output_file with
         | Some text => Ok text
         | None => Raise (ValueError "File not found")
         end;
  df ← read_json text;
  Ok {| Dataset.files := fs';
        Dataset.stdout := ["Example:"; shown];
        Dataset.main_df := df |}.


(** Cell 2.2, after the model is loaded: the ids of [input_text] are
    continued by at most 32 tokens and the first row is decoded with its
    special tokens kept.  No padding id is passed; the library falls back on
    the end-of-sequence id. *)
Definition input_text : string := "Ask a question about Overfitting/Underfitting.".

Definition base_model_check `{CausalLM} (smp : sampler) : result string :=
  let input_ids := tokenize input_text in
  let outputs := generate smp input_ids 32 eos_token_id in
  first ← Py.index outputs 0;
  Ok (Generation.decode first false).

(** A text without braces, as the literal parts and the field name of a
    format template are. *)
Definition no_braces (s : string) : Prop :=
  Py.contains "{" s = false ∧ Py.contains "}" s = false.

(** Reading an escaped text back, the inverse the encoder's table admits:
    a backslash announces a short escape or [u] and four hexadecimal
    digits. *)
Definition hex_value (c : ascii) : nat :=
  match c with
  | "0" => 0 | "1" => 1 | "2" => 2 | "3" => 3 | "4" => 4 | "5" => 5
  | "6" => 6 | "7" => 7 | "8" => 8 | "9" => 9 | "a" => 10 | "b" => 11
  | "c" => 12 | "d" => 13 | "e" => 14 | _ => 15
  end%char.

Definition short_escape (c : ascii) : ascii :=
  match c with
  | "b" => "008" | "f" => "012" | "n" => "010" | "r" => "013" | "t" => "009"
  | _ => c
  end%char.

Fixpoint unescape (s : string) : string :=
  match s with
  | EmptyString => EmptyString
  | String c rest =>
      if decide (c = Json.backslash) then
        match rest with
        | EmptyString => EmptyString
        | String d rest' =>
            if decide (d = "u"%char) then
              match rest' with
              | String _ (String _ (String h (String l rest''))) =>
                  String (ascii_of_nat (16 * hex_value h + hex_value l))
                         (unescape rest'')
              | _ => EmptyString
              end
            else String (short_escape d) (unescape rest')
        end
      else String c (unescape rest)
  end.

(** ** Cell 3.1: the write statement, chunk by chunk *)

Module Dump.

(** A text is held as the bytes of its UTF-8 form, a code point of the
    surrogate range as the three bytes the [surrogatepass] handler gives it:
    237, then a byte from 160 to 191, then a continuation byte.  The strict
    encoder of a file opened with [encoding='utf-8'] refuses such a text. *)
Definition is_lead (c : ascii) : bool := nat_of_ascii c =? 237.

Definition is_trail (c : ascii) : bool :=
  (160 <=? nat_of_ascii c) && (nat_of_ascii c <=? 191).

Fixpoint surrogate_after (lead : bool) (s : string) : bool :=
  match s with
  | EmptyString => false
  | String c s' => (lead && is_trail c) || surrogate_after (is_lead c) s'
  end.

Definition has_surrogate (s : string) : bool := surrogate_after false s.

(** The values [_iterencode_list] and [_iterencode_dict] write in one piece. *)
Definition atom (j : Json.json) : option string :=
  match j with
  | Json.JNull => Some "null"
  | Json.JBool true => Some "true"
  | Json.JBool false => Some "false"
  | Json.JNum literal => Some literal
  | Json.JStr s => Some (Json.py_encode_basestring s)
  | _ => None
  end.

(** [_iterencode] of [json.encoder] with an integer [indent]: the pieces of
    text in the order they are yielded.  In a list an atom is yielded
    together with the bracket or separator before it, a container after
    them; in a dict the brace, the line break, each key, the colon and each
    atom are pieces of their own. *)
Fixpoint iterencode (indent level : nat) (j : Json.json) : list string :=
  match j with
  | Json.JArr [] => ["[]"]
  | Json.JArr items =>
      (fix each (first : bool) (items : list Json.json) : list string :=
         match items with
         | [] => []
         | item :: items' =>
             let buf := (if first then "[" else ",")
                        +:+ Json.newline_indent indent (S level) in
             match atom item with
             | Some text => [buf +:+ text]
             | None => buf :: iterencode indent (S level) item
             end ++ each false items'
         end) true items
      ++ [Json.newline_indent indent level; "]"]
  | Json.JObj [] => ["{}"]
  | Json.JObj members =>
      ["{"; Json.newline_indent indent (S level)]
      ++ (fix each (first : bool) (members : list (string * Json.json))
            : list string :=
            match members with
            | [] => []
            | (key, item) :: members' =>
                (if first then []
                 else ["," +:+ Json.newline_indent indent (S level)])
                ++ [Json.py_encode_basestring key; ": "]
                ++ match atom item with
                   | Some text => [text]
                   | None => iterencode indent (S level) item
                   end
                ++ each false members'
            end) true members
      ++ [Json.newline_indent indent level; "}"]
  | _ => match atom j with Some text => [text] | None => [] end
  end.

(** The same for the list [converted_data], whose items are Python values:
    one that is not JSON data is reached after the bracket or separator
    before it has been yielded, and [default] raises. *)
Fixpoint values_from (first : bool) (indent : nat) (vs : list Dataset.value)
  : list (result string) :=
  match vs with
  | [] => []
  | v :: vs' =>
      let buf := (if first then "[" else ",")
                 +:+ Json.newline_indent indent 1 in
      match Dataset.serializable v with
      | Ok j => match atom j with
                | Some text => [Ok (buf +:+ text)]
                | None => Ok buf :: (Ok <$> iterencode indent 1 j)
                end
      | Raise e => [Ok buf; Raise e]
      end ++ values_from false indent vs'
  end.

Definition iterencode_values (indent : nat) (vs : list Dataset.value)
  : list (result string) :=
  match vs with
  | [] => [Ok "[]"]
  | _ => values_from true indent vs
         ++ [Ok (Json.newline_indent indent 0); Ok "]"]
  end.

(** [for chunk in iterable: fp.write(chunk)]: a chunk is encoded when it is
    written, so what was written before the chunk that raises, or that
    cannot be encoded, stays in the file. *)
Fixpoint write_chunks (chunks : list (result string)) (written : string)
  : string * result unit :=
  match chunks with
  | [] => (written, Ok tt)
  | Raise e :: _ => (written, Raise e)
  | Ok chunk :: chunks' =>
      if has_surrogate chunk then (written, Raise UnicodeEncodeError)
      else write_chunks chunks' (written +:+ chunk)
  end.

(** [with open(output_file, 'w', encoding='utf-8') as f:
       json.dump(converted_data, f, indent=2, ensure_ascii=False)]
    [opened] is what [open] does on the machine at hand: it raises
    ([FileNotFoundError] when [/content] is missing, for one) and nothing is
    touched, or it truncates the file; the [with] block closes the file on
    every way out, so the file holds what was written. *)
Definition write_file (opened : result unit) (converted : list Dataset.value)
    (fs : gmap string string) : gmap string string * result unit :=
  match opened with
  | Raise e => (fs, Raise e)
  | Ok _ =>
      let '(written, outcome) :=
        write_chunks (iterencode_values 2 converted) EmptyString in
      (<[Dataset.output_file := written]> fs, outcome)
  end.

(** The two string tokens the encoder writes for a record. *)
Definition record_tokens (r : string * string) : string * string :=
  (Json.py_encode_basestring r.1, Json.py_encode_basestring r.2).

End Dump.

(** ** The layout of the intermediate file, as a reader sees it *)

Module Layout.

Definition double_quote : ascii := "034"%char.

Definition in_quotes (s : string) : string :=
  String double_quote (s +:+ String double_quote EmptyString).

(** An object of the file, given the two string tokens it holds: the keys
    four spaces in, the closing brace two. *)
Definition record_text (tok : string * string) : string :=
  "{
    " +:+ in_quotes "prompt" +:+ ": " +:+ tok.1 +:+ ",
    " +:+ in_quotes "completion" +:+ ": " +:+ tok.2 +:+ "
  }".

(** The file: the objects two spaces in, one after the other, between
    brackets on lines of their own. *)
Definition array_text (toks : list (string * string)) : string :=
  match toks with
  | [] => "[]"
  | _ => "[
  " +:+ String.concat ",
  " (List.map record_text toks) +:+ "
]"
  end.



(** The value of a hexadecimal digit, of either case. *)
Definition hex_digit_value (c : ascii) : option nat :=
  let n := nat_of_ascii c in
  if (48 <=? n) && (n <=? 57) then Some (n - 48)
  else if (97 <=? n) && (n <=? 102) then Some (n - 87)
  else if (65 <=? n) && (n <=? 70) then Some (n - 55)
  else None.

Definition short_char (c : ascii) : option ascii :=
  match c with
  | "034" => Some "034" | "092" => Some "092" | "/" => Some "/"
  | "b" => Some "008" | "f" => Some "012" | "n" => Some "010"
  | "r" => Some "013" | "t" => Some "009"
  | _ => None
  end%char.

(** A string token of the JSON grammar, read back: after the opening quote,
    characters from [0x20] on up to the closing quote, which ends the token;
    a backslash starts one of the short escapes or [u] and four hexadecimal
    digits.  Of the latter the reader takes those of an ASCII character. *)
Fixpoint read_body (s : string) : option string :=
  match s with
  | EmptyString => None
  | String c rest =>
      if decide (c = double_quote) then
        match rest with EmptyString => Some EmptyString | _ => None end
      else if decide (c = "092"%char) then
        match rest with
        | EmptyString => None
        | String d rest' =>
            if decide (d = "u"%char) then
              match rest' with
              | String "0" (String "0" (String h (String l rest''))) =>
                  match hex_digit_value h, hex_digit_value l with
                  | Some x, Some y =>
                      if 16 * x + y <? 128
                      then String (ascii_of_nat (16 * x + y)) <$> read_body rest''
                      else None
                  | _, _ => None
                  end
              | _ => None
              end
            else match short_char d with
                 | Some x => String x <$> read_body rest'
                 | None => None
                 end
        end
      else if nat_of_ascii c <? 32 then None
      else String c <$> read_body rest
  end.

Definition read_token (tok : string) : option string :=
  match tok with
  | String c body => if decide (c = double_quote) then read_body body else None
  | EmptyString => None
  end.

(** A text that needs no escape. *)
Definition plain_char (c : ascii) : bool :=
  (32 <=? nat_of_ascii c)
  && negb (nat_of_ascii c =? 34) && negb (nat_of_ascii c =? 92).

Fixpoint is_plain (s : string) : bool :=
  match s with
  | EmptyString => true
  | String c s' => plain_char c && is_plain s'
  end.

(** The bytes of the non-ASCII characters of a text, in order. *)
Fixpoint non_ascii (s : string) : list ascii :=
  match s with
  | EmptyString => []
  | String c s' =>
      if 128 <=? nat_of_ascii c then c :: non_ascii s' else non_ascii s'
  end.

(** [tok] is a token for [text]: a JSON string on one line that reads back
    as [text], holds the non-ASCII characters of [text] as they are and no
    other, and is [text] itself between quotes when nothing in it needs an
    escape. *)
Definition is_token (tok text : string) : Prop :=
  read_token tok = Some text
  ∧ Py.contains "010" tok = false
  ∧ non_ascii tok = non_ascii text
  ∧ (is_plain text = true → tok = in_quotes text).

End Layout.

(** A field name [str.format] looks up among the keyword arguments as it
    stands: an ASCII identifier. *)
Definition is_letter (c : ascii) : bool :=
  let n := nat_of_ascii c in
  ((65 <=? n) && (n <=? 90)) || ((97 <=? n) && (n <=? 122)) || (n =? 95).

Fixpoint all_name_chars (s : string) : bool :=
  match s with
  | EmptyString => true
  | String c s' => (is_letter c || Py.is_digit c) && all_name_chars s'
  end.

Definition is_identifier (s : string) : bool :=
  match s with
  | EmptyString => false
  | String c s' => is_letter c && all_name_chars s'
  end.

(** A generator for running the cells on concrete data.  It has two states:
    in one every permutation is the reversal of [0 .. n-1], in the other the
    identity; a seed gives the first. *)
#[local] Program Instance two_state_rng : NumpyRandom := {
  rng := bool;
  RandomState := λ _, true;
  permutation := λ g n, if g then rev (seq 0 n) else seq 0 n
}.
Next Obligation.
  intros [] n; [symmetry; apply Permutation_rev | reflexivity].
Qed.

(** * Properties *)

#[local] Set Warnings "-clear-no-such-hyp".

(** Bring the defining inequalities of [a / d] into the context for [lia]. *)
Ltac div_bounds a d :=
  pose proof (Nat.div_mod_eq a d);
  pose proof (Nat.mod_upper_bound a d ltac:(lia)).

(** ** Properties of the string primitives *)

Lemma split_nonempty sep s : Py.split sep s ≠ [].
Proof.
  destruct s as [|c s]; simpl; [done|].
  case_decide; [done|]. by destruct (Py.split sep s).
Qed.

Lemma split_no_sep sep s : Py.contains sep s = false → Py.split sep s = [s].
Proof.
  induction s as [|c s IH]; simpl; [done|].
  case_decide; [done|]. intros Hs. by rewrite (IH Hs).
Qed.

Lemma segment_total name : ∃ seg, LoRA.segment name = Ok seg.
Proof.
  unfold LoRA.segment. pose proof (split_nonempty "." name) as Hne.
  destruct (Py.split "." name) as [|x xs] eqn:E; [done|].
  case_decide as Hlen.
  - exists x. done.
  - unfold Py.index_neg. rewrite decide_True by (simpl; lia).
    unfold Py.index.
    destruct ((x :: xs) !! (length (x :: xs) - 1)) as [y|] eqn:Hy; [by eexists|].
    apply lookup_ge_None in Hy. simpl in Hy. lia.
Qed.

Lemma segment_last name :
  LoRA.segment name = Ok (default "" (last (Py.split "." name))).
Proof.
  unfold LoRA.segment. pose proof (split_nonempty "." name) as Hne.
  destruct (Py.split "." name) as [|x xs] eqn:E; [done|].
  case_decide as Hlen.
  - destruct xs; [done | simpl in Hlen; lia].
  - unfold Py.index_neg. rewrite decide_True by (simpl; lia).
    unfold Py.index. rewrite last_lookup.
    replace (length (x :: xs) - 1) with (pred (length (x :: xs))) by lia.
    destruct ((x :: xs) !! pred (length (x :: xs))) eqn:Hy; [done|].
    apply lookup_ge_None in Hy. simpl in Hy. lia.
Qed.

Lemma segment_no_dot name :
  Py.contains "." name = false → LoRA.segment name = Ok name.
Proof.
  intros H. unfold LoRA.segment. by rewrite (split_no_sep _ _ H).
Qed.

(** ** Properties of target-module discovery *)

Lemma split_app sep p s :
  Py.split sep (p +:+ String sep s) = Py.split sep p ++ Py.split sep s.
Proof.
  induction p as [|c p IH]; simpl.
  - by rewrite decide_True.
  - case_decide; [by rewrite IH|].
    rewrite IH. pose proof (split_nonempty sep p) as Hne.
    by destruct (Py.split sep p).
Qed.

Lemma split_singleton sep s x :
  Py.split sep s = [x] → x = s ∧ Py.contains sep s = false.
Proof.
  revert x. induction s as [|c s IH]; simpl; intros x Hx.
  - by inversion Hx.
  - case_decide.
    + inversion Hx as [[Hx1 Hx2]]. by apply split_nonempty in Hx2.
    + destruct (Py.split sep s) as [|sg sgs] eqn:E; [by apply split_nonempty in E|].
      inversion Hx; subst. destruct (IH sg eq_refl) as [-> ?]. done.
Qed.

Lemma last_split_segment name seg :
  last (Py.split "." name) = Some seg → is_last_segment name seg.
Proof.
  revert seg. induction name as [|c name IH]; simpl; intros seg Hseg.
  - inversion Hseg. by split; [|left].
  - case_decide as Hc.
    + subst c. pose proof (split_nonempty "." name) as Hne.
      rewrite last_cons in Hseg.
      destruct (last (Py.split "." name)) as [sg|] eqn:Hl.
      * inversion Hseg; subst sg. destruct (IH seg eq_refl) as [Hno [->|[p ->]]].
        -- split; [done|]. right. by exists "".
        -- split; [done|]. right. by exists (String "." p).
      * apply last_None in Hl. done.
    + destruct (Py.split "." name) as [|sg sgs] eqn:E.
      { by apply split_nonempty in E. }
      destruct sgs as [|sg' sgs'].
      * inversion Hseg; subst seg. apply split_singleton in E as [-> Hno].
        split; [|by left]. simpl. by rewrite decide_False.
      * assert (last (sg :: sg' :: sgs') = Some seg) as Hl by done.
        destruct (IH seg Hl) as [Hno [->|[p ->]]].
        -- rewrite (split_no_sep _ _ Hno) in E. inversion E.
        -- split; [done|]. right. by exists (String c p).
Qed.

Lemma segment_of_last_segment name seg :
  is_last_segment name seg → LoRA.segment name = Ok seg.
Proof.
  intros [Hno [->|[p ->]]].
  - by apply segment_no_dot.
  - rewrite segment_last, split_app, (split_no_sep _ _ Hno), last_snoc. done.
Qed.

Lemma segment_is_last_segment name seg :
  LoRA.segment name = Ok seg ↔ is_last_segment name seg.
Proof.
  split; [|apply segment_of_last_segment].
  rewrite segment_last. intros Hseg. apply last_split_segment.
  pose proof (split_nonempty "." name) as Hne.
  destruct (last (Py.split "." name)) as [sg|] eqn:Hl.
  - simpl in Hseg. by inversion Hseg.
  - by apply last_None in Hl.
Qed.

(** One iteration adds the sublayer's segment when the sublayer is of the
    quantized kind, and leaves the set without the head name. *)
Lemma visit_ok acc name m :
  ∃ seg, LoRA.segment name = Ok seg ∧
    LoRA.visit acc (name, m) =
      Ok ((if LoRA.isinstance m LoRA.Linear4bit then {[ seg ]} ∪ acc else acc)
            ∖ {[ LoRA.lm_head ]}).
Proof.
  destruct (segment_total name) as [seg Hseg]. exists seg. split; [done|].
  unfold LoRA.visit. rewrite Hseg.
  destruct (LoRA.isinstance m LoRA.Linear4bit); simpl;
    unfold Py.set_remove, Py.set_add; repeat case_decide;
    try done; f_equal; set_solver.
Qed.

Lemma collect_from acc nms :
  LoRA.lm_head ∉ acc →
  for_each LoRA.visit nms acc =
    Ok ((acc ∪ LoRA.quantized_segments nms) ∖ {[ LoRA.lm_head ]}).
Proof.
  revert acc. induction nms as [|[name m] nms IH]; intros acc Hacc.
  - simpl. f_equal. unfold LoRA.quantized_segments. simpl. set_solver.
  - destruct (visit_ok acc name m) as (seg & Hseg & Hv).
    cbn [for_each]. rewrite Hv. cbn [mbind result_bind].
    rewrite IH by set_solver. f_equal.
    unfold LoRA.quantized_segments. cbn [omap list_omap fst snd].
    rewrite Hseg. destruct (LoRA.isinstance m LoRA.Linear4bit); simpl; set_solver.
Qed.

Lemma collect_ok mdl :
  LoRA.collect mdl =
    Ok (LoRA.quantized_segments (LoRA.named_modules mdl) ∖ {[ LoRA.lm_head ]}).
Proof.
  unfold LoRA.collect. rewrite collect_from by set_solver. f_equal. set_solver.
Qed.

Lemma elem_of_quantized_segments s nms :
  s ∈ LoRA.quantized_segments nms ↔
  ∃ name m, (name, m) ∈ nms ∧ LoRA.isinstance m LoRA.Linear4bit = true ∧
            is_last_segment name s.
Proof.
  unfold LoRA.quantized_segments. rewrite elem_of_list_to_set, list_elem_of_omap.
  split.
  - intros ([name m] & Hin & Hsel). simpl in Hsel.
    destruct (LoRA.isinstance m LoRA.Linear4bit) eqn:Hi; [|done].
    destruct (LoRA.segment name) as [sg|] eqn:Hseg; [|done].
    inversion Hsel; subst sg. exists name, m.
    by rewrite <- segment_is_last_segment.
  - intros (name & m & Hin & Hi & Hseg). exists (name, m). split; [done|].
    simpl. rewrite Hi. apply segment_is_last_segment in Hseg. by rewrite Hseg.
Qed.

(** C2: the names returned by [find_all_linear_names] never include
    ['lm_head'], whatever the classes of the sublayers (a quantized head
    included) and wherever the head sits in the traversal. *)
Theorem find_all_linear_names_excludes_head (mdl : LoRA.model) :
  ∃ names, LoRA.find_all_linear_names mdl = Ok names ∧ LoRA.lm_head ∉ names.
Proof.
  unfold LoRA.find_all_linear_names. rewrite collect_ok. eexists. split; [done|].
  rewrite elem_of_elements. set_solver.
Qed.

(** C7: [find_all_linear_names] returns, without repetition, exactly the last
    dot-separated segments of the names of the sublayers that are instances
    of the quantized 4-bit linear class, the head name excepted; a name
    without a dot is its own segment. *)
Theorem find_all_linear_names_exact (mdl : LoRA.model) :
  ∃ names, LoRA.find_all_linear_names mdl = Ok names ∧ NoDup names ∧
    (∀ s, s ∈ names ↔
       s ≠ LoRA.lm_head ∧
       ∃ name m, (name, m) ∈ LoRA.named_modules mdl ∧
                 LoRA.isinstance m LoRA.Linear4bit = true ∧
                 is_last_segment name s) ∧
    (∀ name m, (name, m) ∈ LoRA.named_modules mdl →
       LoRA.isinstance m LoRA.Linear4bit = true →
       Py.contains "." name = false → name ≠ LoRA.lm_head → name ∈ names).
Proof.
  unfold LoRA.find_all_linear_names. rewrite collect_ok. eexists.
  split; [done|]. split; [apply NoDup_elements|].
  assert (∀ s, s ∈ elements (LoRA.quantized_segments (LoRA.named_modules mdl)
                              ∖ {[LoRA.lm_head]}) ↔
            s ≠ LoRA.lm_head ∧
            ∃ name m, (name, m) ∈ LoRA.named_modules mdl ∧
                      LoRA.isinstance m LoRA.Linear4bit = true ∧
                      is_last_segment name s) as Hiff.
  { intros s. rewrite elem_of_elements, elem_of_difference,
      elem_of_quantized_segments, elem_of_singleton. tauto. }
  split; [done|].
  intros name m Hin Hi Hno Hne. apply Hiff. split; [done|].
  exists name, m. repeat split; try done. by left.
Qed.

(** A head of the quantized class in the middle of the traversal, layers
    under dotted names, and a layer that is not quantized. *)
Example find_all_linear_names_sample :
  let q4 := {| LoRA.mro := ["Linear4bit"; "Linear"; "Module"; "object"] |} in
  let other := {| LoRA.mro := ["GemmaRMSNorm"; "Module"; "object"] |} in
  LoRA.find_all_linear_names
    {| LoRA.named_modules :=
         [("", other);
          ("model.layers.0.self_attn.q_proj", q4);
          ("model.layers.0.input_layernorm", other);
          ("lm_head", q4);
          ("model.layers.0.mlp.up_proj", q4);
          ("model.layers.1.self_attn.q_proj", q4)] |}
    = Ok ["up_proj"; "q_proj"].
Proof. by vm_compute. Qed.

(** ** Properties of the partitioning *)

Lemma take_rows_from {R} (df : Pandas.dataframe R) ps acc :
  Forall (λ i, i < length df) ps →
  for_each (λ acc i, row ← Py.index df i; Ok (acc ++ [row])) ps acc
    = Ok (acc ++ omap (df !!.) ps) ∧
  length (omap (df !!.) ps) = length ps.
Proof.
  intros Hps. revert acc. induction Hps as [|i ps Hi Hps IH]; intros acc.
  - simpl. by rewrite app_nil_r.
  - apply lookup_lt_is_Some in Hi as [row Hrow].
    assert (Py.index df i = Ok row) as Hidx by (unfold Py.index; by rewrite Hrow).
    cbn [for_each omap list_omap]. rewrite Hidx, Hrow.
    cbn [mbind result_bind]. destruct (IH (acc ++ [row])) as [-> Hlen].
    split; [by rewrite <- app_assoc | simpl; by rewrite Hlen].
Qed.

Lemma take_rows_ok {R} (df : Pandas.dataframe R) ps :
  Forall (λ i, i < length df) ps →
  Pandas.take_rows df ps = Ok (omap (df !!.) ps) ∧
  length (omap (df !!.) ps) = length ps.
Proof. intros Hps. apply (take_rows_from df ps [] Hps). Qed.

Lemma omap_lookup_seq {A} (l : list A) : omap (l !!.) (seq 0 (length l)) = l.
Proof.
  induction l as [|x l IH] using rev_ind; [done|].
  rewrite length_app, Nat.add_1_r, seq_S, omap_app. simpl.
  rewrite lookup_app_r, Nat.sub_diag by lia. simpl. f_equal.
  etrans; [|exact IH]. apply list_omap_ext. apply Forall_Forall2_diag.
  apply Forall_forall. intros i Hi%elem_of_seq. apply lookup_app_l. lia.
Qed.

Section partitioning.
Context `{NumpyRandom} {R : Type}.
Implicit Types df : Pandas.dataframe R.

Lemma permutation_in_range g n : Forall (λ i, i < n) (permutation g n).
Proof.
  rewrite (permutation_perm g n). apply Forall_forall.
  intros i Hi%elem_of_seq. lia.
Qed.

Lemma permutation_length g n : length (permutation g n) = n.
Proof. by rewrite (permutation_perm g n), length_seq. Qed.

(** With at least one row left for the train part the split succeeds, the
    two parts have the computed sizes and together they are the frame. *)
Lemma train_test_split_ok g df f rs :
  Sklearn.in_range f = true →
  Sklearn.ceil_mul f (length df) < length df →
  ∃ train test,
    Sklearn.train_test_split g df f rs = Ok (train, test) ∧
    length test = Sklearn.ceil_mul f (length df) ∧
    length train = length df - Sklearn.ceil_mul f (length df) ∧
    test ++ train ≡ₚ df.
Proof.
  intros Hf Hk. unfold Sklearn.train_test_split. rewrite Hf. cbn [negb].
  set (n := length df) in *. set (k := Sklearn.ceil_mul f n) in *.
  set (perm := permutation (Sklearn.check_random_state g rs) n).
  rewrite decide_False by lia.
  assert (length perm = n) as Hlen by apply permutation_length.
  assert (Forall (λ i, i < n) perm) as Hrange by apply permutation_in_range.
  assert (take (n - k) (drop k perm) = drop k perm) as ->.
  { apply take_ge. rewrite length_drop. lia. }
  destruct (take_rows_ok df (drop k perm)) as [-> Htrain].
  { by apply Forall_drop. }
  destruct (take_rows_ok df (take k perm)) as [-> Htest].
  { by apply Forall_take. }
  cbn [mbind result_bind]. do 2 eexists. split; [done|].
  rewrite Htest, Htrain, length_take, length_drop.
  repeat split; try lia.
  rewrite <- omap_app, take_drop. subst perm.
  rewrite (permutation_perm _ n). subst n. by rewrite omap_lookup_seq.
Qed.

(** Otherwise it is refused. *)
Lemma train_test_split_empty g df f rs :
  length df ≤ Sklearn.ceil_mul f (length df) →
  is_ok (Sklearn.train_test_split g df f rs) = false.
Proof.
  intros Hk. unfold Sklearn.train_test_split.
  destruct (negb (Sklearn.in_range f)); [done|]. by rewrite decide_True by lia.
Qed.

(** An integer seed makes the split independent of the process-wide
    generator. *)
Lemma train_test_split_seeded g1 g2 df f seed :
  Sklearn.train_test_split g1 df f (Sklearn.RSInt seed)
    = Sklearn.train_test_split g2 df f (Sklearn.RSInt seed).
Proof. done. Qed.

Lemma split_cell_seeded g1 g2 df :
  Pipeline.split_cell g1 df = Pipeline.split_cell g2 df.
Proof. done. Qed.

Lemma ceil_fifth n : Sklearn.ceil_mul Pipeline.test_size_1 n = (n + 4) / 5.
Proof.
  unfold Sklearn.ceil_mul, Pipeline.test_size_1. cbn [Sklearn.num Sklearn.den].
  by replace (n * 1 + 5 - 1) with (n + 4) by lia.
Qed.

Lemma ceil_half n : Sklearn.ceil_mul Pipeline.test_size_2 n = (n + 1) / 2.
Proof.
  unfold Sklearn.ceil_mul, Pipeline.test_size_2. cbn [Sklearn.num Sklearn.den].
  by replace (n * 1 + 2 - 1) with (n + 1) by lia.
Qed.

(** What cell 3.2 computes on a frame of at least six rows. *)
Lemma split_cell_ok g df :
  6 ≤ length df →
  ∃ p, Pipeline.split_cell g df = Ok p ∧
    length (Pipeline.temp_data p) = (length df + 4) / 5 ∧
    length (Pipeline.train_data p) = length df - (length df + 4) / 5 ∧
    length (Pipeline.test_data p) = ((length df + 4) / 5 + 1) / 2 ∧
    length (Pipeline.eval_data p)
      = (length df + 4) / 5 - ((length df + 4) / 5 + 1) / 2 ∧
    Pipeline.temp_data p ++ Pipeline.train_data p ≡ₚ df ∧
    Pipeline.test_data p ++ Pipeline.eval_data p ≡ₚ Pipeline.temp_data p.
Proof.
  intros Hn. unfold Pipeline.split_cell.
  destruct (train_test_split_ok g df Pipeline.test_size_1 Pipeline.random_state)
    as (train & temp & -> & Htemp & Htrain & Hp1).
  { done. }
  { rewrite ceil_fifth. div_bounds (length df + 4) 5. lia. }
  rewrite ceil_fifth in Htemp, Htrain. cbn [mbind result_bind].
  destruct (train_test_split_ok g temp Pipeline.test_size_2 Pipeline.random_state)
    as (eval & test & -> & Htest & Heval & Hp2).
  { done. }
  { rewrite ceil_half, Htemp. div_bounds (length df + 4) 5.
    div_bounds ((length df + 4) / 5 + 1) 2. lia. }
  rewrite ceil_half, Htemp in Htest, Heval. cbn [mbind result_bind].
  eexists. split; [done|]. simpl. by repeat split.
Qed.

(** Below six rows one of the two splits is refused. *)
Lemma split_cell_small g df :
  length df < 6 → is_ok (Pipeline.split_cell g df) = false.
Proof.
  intros Hn. unfold Pipeline.split_cell.
  destruct (decide (length df ≤ 1)) as [Hle|Hgt].
  - pose proof (train_test_split_empty g df Pipeline.test_size_1
                  Pipeline.random_state) as He.
    rewrite ceil_fifth in He.
    destruct (Sklearn.train_test_split g df _ _); [|done].
    discriminate He. div_bounds (length df + 4) 5. lia.
  - destruct (train_test_split_ok g df Pipeline.test_size_1 Pipeline.random_state)
      as (train & temp & -> & Htemp & Htrain & Hp1).
    { done. }
    { rewrite ceil_fifth. div_bounds (length df + 4) 5. lia. }
    rewrite ceil_fifth in Htemp. cbn [mbind result_bind].
    pose proof (train_test_split_empty g temp Pipeline.test_size_2
                  Pipeline.random_state) as He.
    rewrite ceil_half, Htemp in He.
    destruct (Sklearn.train_test_split g temp _ _); [|done].
    discriminate He.
    assert ((length df + 4) / 5 = 1) as ->
      by (div_bounds (length df + 4) 5; lia).
    simpl. lia.
Qed.

End partitioning.

Lemma from_records_NoDup {R} (records : list R) :
  NoDup (Pandas.from_records records).
Proof.
  unfold Pandas.from_records. apply (NoDup_fmap_1 fst).
  rewrite fst_zip by (rewrite length_seq; lia). apply NoDup_seq.
Qed.

Lemma length_from_records {R} (records : list R) :
  length (Pandas.from_records records) = length records.
Proof.
  unfold Pandas.from_records. rewrite length_zip_with_r_eq; [done|].
  by rewrite length_seq.
Qed.

Section partition_claims.
Context `{NumpyRandom} {R : Type}.

(** C3, as amended: on a data set of at least six records the two-stage
    partitioning gives the same three partitions whatever the state of the
    process-wide generator (the seed is fixed in the cell), their sizes are
    within one element of 80%, 10% and 10% of the total, no row is in two
    of them, and together they are the whole frame. *)
Theorem split_cell_partitions (g1 g2 : rng) (records : list R) :
  6 ≤ length records →
  Pipeline.split_cell g1 (Pandas.from_records records)
    = Pipeline.split_cell g2 (Pandas.from_records records) ∧
  ∃ p, Pipeline.split_cell g1 (Pandas.from_records records) = Ok p ∧
    (8 * length records ≤ 10 * length (Pipeline.train_data p) + 10 ∧
     10 * length (Pipeline.train_data p) ≤ 8 * length records + 10) ∧
    (length records ≤ 10 * length (Pipeline.eval_data p) + 10 ∧
     10 * length (Pipeline.eval_data p) ≤ length records + 10) ∧
    (length records ≤ 10 * length (Pipeline.test_data p) + 10 ∧
     10 * length (Pipeline.test_data p) ≤ length records + 10) ∧
    (∀ r, r ∈ Pipeline.train_data p →
          (r ∉ Pipeline.eval_data p) ∧ (r ∉ Pipeline.test_data p)) ∧
    (∀ r, r ∈ Pipeline.eval_data p → r ∉ Pipeline.test_data p) ∧
    Pipeline.train_data p ++ Pipeline.eval_data p ++ Pipeline.test_data p
      ≡ₚ Pandas.from_records records.
Proof.
  intros Hn. split; [apply split_cell_seeded|].
  destruct (split_cell_ok g1 (Pandas.from_records records))
    as (p & Hp & Htemp & Htrain & Htest & Heval & Hp1 & Hp2).
  { by rewrite length_from_records. }
  rewrite length_from_records in Htemp, Htrain, Htest, Heval.
  exists p. split; [done|].
  set (n := length records) in *.
  div_bounds (n + 4) 5. div_bounds ((n + 4) / 5 + 1) 2.
  do 3 (split; [lia|]).
  assert (Pipeline.train_data p ++ Pipeline.eval_data p ++ Pipeline.test_data p
            ≡ₚ Pandas.from_records records) as Hall.
  { rewrite <- Hp1, <- Hp2.
    rewrite (Permutation_app_comm (Pipeline.test_data p)).
    by rewrite Permutation_app_comm. }
  pose proof (from_records_NoDup records) as Hnd. rewrite <- Hall in Hnd.
  apply NoDup_app in Hnd as (_ & Hdisj1 & Hnd).
  apply NoDup_app in Hnd as (_ & Hdisj2 & _).
  split; [|split; [exact Hdisj2 | exact Hall]].
  intros r Hr. specialize (Hdisj1 r Hr). rewrite elem_of_app in Hdisj1. tauto.
Qed.

(** C1: whenever cell 3.2 succeeds, the trainer of cell 4.5 is given the
    train partition for training, but for evaluation the 20% remainder
    [temp_data], which holds every row of the test partition, and the
    test partition is not empty. *)
Theorem trainer_eval_dataset_holds_test_rows
    (g : rng) (df : Pandas.dataframe R) (p : Pipeline.partitions R) :
  Pipeline.split_cell g df = Ok p →
  Pipeline.train_dataset (Pipeline.trainer_cell p) = Pipeline.train_data p ∧
  Pipeline.eval_dataset (Pipeline.trainer_cell p) = Pipeline.temp_data p ∧
  Pipeline.test_data p ≠ [] ∧
  ∀ r, r ∈ Pipeline.test_data p →
       r ∈ Pipeline.eval_dataset (Pipeline.trainer_cell p).
Proof.
  intros Hp.
  destruct (decide (length df < 6)) as [Hlt|Hge].
  { pose proof (split_cell_small g df Hlt) as Hno. by rewrite Hp in Hno. }
  destruct (split_cell_ok g df)
    as (p' & Hp' & Htemp & Htrain & Htest & Heval & Hp1 & Hp2); [lia|].
  rewrite Hp in Hp'. inversion Hp'; subst p'.
  split; [done|]. split; [done|]. split.
  - intros Hnil. rewrite Hnil in Htest. cbn [length] in Htest.
    div_bounds (length df + 4) 5. div_bounds ((length df + 4) / 5 + 1) 2. lia.
  - intros r Hr. unfold Pipeline.trainer_cell, Pipeline.from_pandas. simpl.
    rewrite <- Hp2. apply elem_of_app. by left.
Qed.

End partition_claims.

(** Ten records: the seeded generator reverses, so rows 9 and 8 are held
    out, row 8 becomes the test partition, and the trainer evaluates on
    both. *)
Example split_cell_ten_records :
  let records := ["r0"; "r1"; "r2"; "r3"; "r4"; "r5"; "r6"; "r7"; "r8"; "r9"] in
  ∃ p, Pipeline.split_cell (H:=two_state_rng) false (Pandas.from_records records)
         = Ok p ∧
       Pipeline.eval_data p = [(9, "r9")] ∧
       Pipeline.test_data p = [(8, "r8")] ∧
       Pipeline.eval_dataset (Pipeline.trainer_cell p) = [(9, "r9"); (8, "r8")].
Proof. eexists. repeat split. Qed.

(** Without a seed the split follows the process-wide generator. *)
Example train_test_split_unseeded :
  let df := Pandas.from_records ["r0"; "r1"; "r2"; "r3"; "r4"] in
  Sklearn.train_test_split (H:=two_state_rng) true df Pipeline.test_size_1
    Sklearn.RSNone
  ≠ Sklearn.train_test_split (H:=two_state_rng) false df Pipeline.test_size_1
      Sklearn.RSNone.
Proof. by vm_compute. Qed.

(** The partitions of ten records: eight, one and one rows. *)
Lemma split_cell_partitions_witness :
  let records := ["r0"; "r1"; "r2"; "r3"; "r4"; "r5"; "r6"; "r7"; "r8"; "r9"] in
  6 ≤ length records ∧
  ∃ p, Pipeline.split_cell (H:=two_state_rng) false (Pandas.from_records records)
         = Ok p ∧
       length (Pipeline.train_data p) = 8 ∧
       length (Pipeline.eval_data p) = 1 ∧
       length (Pipeline.test_data p) = 1.
Proof.
  intros records.
  assert (6 ≤ length records) as Hn by (simpl; lia).
  split; [exact Hn|].
  destruct (split_cell_partitions (H:=two_state_rng) true false records Hn)
    as (_ & p & Hp & _).
  exists p. split; [exact Hp|].
  vm_compute in Hp. inversion Hp. done.
Defined.

(** C3, as stated, fails on a data set of three records: the second split
    would leave the validation partition empty and is refused. *)
Lemma split_cell_three_records_raises :
  Pipeline.split_cell (H:=two_state_rng) false (Pandas.from_records ["r0"; "r1"; "r2"])
    = Raise (ValueError "the resulting train set will be empty").
Proof. reflexivity. Qed.

(** On the ten records the held-out row 8 is among the rows the trainer
    evaluates on. *)
Lemma trainer_eval_dataset_holds_test_rows_witness :
  let records := ["r0"; "r1"; "r2"; "r3"; "r4"; "r5"; "r6"; "r7"; "r8"; "r9"] in
  let p := {| Pipeline.train_data :=
               [(7, "r7"); (6, "r6"); (5, "r5"); (4, "r4");
                (3, "r3"); (2, "r2"); (1, "r1"); (0, "r0")];
              Pipeline.temp_data := [(9, "r9"); (8, "r8")];
              Pipeline.eval_data := [(9, "r9")];
              Pipeline.test_data := [(8, "r8")] |} in
  Pipeline.split_cell (H:=two_state_rng) false (Pandas.from_records records) = Ok p ∧
  (8, "r8") ∈ Pipeline.eval_dataset (Pipeline.trainer_cell p).
Proof.
  intros records p.
  assert (Pipeline.split_cell (H:=two_state_rng) false (Pandas.from_records records)
            = Ok p) as Hp by reflexivity.
  split; [exact Hp|].
  destruct (trainer_eval_dataset_holds_test_rows (H:=two_state_rng) false _ p Hp)
    as (_ & _ & _ & Hin).
  apply Hin. simpl. apply list_elem_of_here.
Defined.

(** ** Properties of the data-set cell *)

Lemma v_not_builtin : "v" ∉ Dataset.builtin_names.
Proof. apply (bool_decide_unpack _). by vm_compute. Qed.

Lemma v_unbound_before_loop data item :
  Dataset.load_name (<["item" := Dataset.VJson item]> (Dataset.globals_before_loop data)) "v"
    = Raise (NameError "v").
Proof.
  unfold Dataset.load_name. rewrite lookup_insert_ne by done.
  unfold Dataset.globals_before_loop.
  rewrite (not_elem_of_list_to_map_1 _ "v").
  - by rewrite decide_False by apply v_not_builtin.
  - cbn [fmap list_fmap fst]. apply (bool_decide_unpack _). by vm_compute.
Qed.

(** C4: on every non-empty input array the first pass through the loop
    body raises [NameError] for the name [v], before any item is converted;
    so does the loop, and with it the whole cell, which writes no file. *)
Theorem convert_loop_raises_name_error
    {DF} (read_json : string → result DF)
    (item : Json.json) (rest : list Json.json) (fs : gmap string string) :
  Dataset.convert_item
    {| Dataset.globals := Dataset.globals_before_loop (item :: rest);
       Dataset.converted_data := [] |} item
    = Raise (NameError "v") ∧
  Dataset.convert_loop (Dataset.globals_before_loop (item :: rest)) (item :: rest)
    = Raise (NameError "v") ∧
  Dataset.dataset_cell read_json (item :: rest) fs = Raise (NameError "v").
Proof.
  assert (Dataset.convert_item
            {| Dataset.globals := Dataset.globals_before_loop (item :: rest);
               Dataset.converted_data := [] |} item
          = Raise (NameError "v")) as Hitem.
  { unfold Dataset.convert_item. cbn [Dataset.globals].
    by rewrite v_unbound_before_loop. }
  assert (Dataset.convert_loop (Dataset.globals_before_loop (item :: rest))
            (item :: rest) = Raise (NameError "v")) as Hloop.
  { unfold Dataset.convert_loop. cbn [for_each]. by rewrite Hitem. }
  split; [done|]. split; [done|].
  unfold Dataset.dataset_cell. by rewrite Hloop.
Qed.

(** Whatever [v] might be bound to, a pass through the body that succeeds
    appends a set holding that value, not a record. *)
Lemma convert_item_appends_set st item st' :
  Dataset.convert_item st item = Ok st' →
  ∃ v, Dataset.converted_data st'
         = Dataset.converted_data st ++ [Dataset.VSet [v]].
Proof.
  unfold Dataset.convert_item. intros Hok.
  destruct (Dataset.load_name _ "v") as [v|] eqn:Hv; [|done].
  cbn [mbind result_bind] in Hok. unfold Dataset.set_display in Hok.
  destruct (forallb Dataset.hashable [v]); [|done].
  cbn [mbind result_bind] in Hok. inversion Hok; subst st'. by exists v.
Qed.

(** On the empty array the loop does nothing and the cell stops at
    [converted_data[0]]. *)
Lemma dataset_cell_empty {DF} (read_json : string → result DF) fs :
  Dataset.dataset_cell read_json [] fs = Raise IndexError.
Proof. done. Qed.

(** ** Properties of the encoder and of the written file *)

Lemma escape_char_non_ascii c :
  128 ≤ nat_of_ascii c → Json.escape_char c = String c "".
Proof.
  intros Hc. unfold Json.escape_char.
  repeat (case_decide; [subst c; vm_compute in Hc; lia|]).
  case_decide; [lia|done].
Qed.

Lemma string_app_cons c (s t : string) : String c s +:+ t = String c (s +:+ t).
Proof. reflexivity. Qed.

Lemma string_app_assoc (s1 s2 s3 : string) :
  (s1 +:+ s2) +:+ s3 = s1 +:+ s2 +:+ s3.
Proof.
  induction s1 as [|c s1 IH]; [done|]. by rewrite !string_app_cons, IH.
Qed.

Lemma escape_app s1 s2 :
  Json.escape (s1 +:+ s2) = Json.escape s1 +:+ Json.escape s2.
Proof.
  induction s1 as [|c s1 IH]; [done|].
  rewrite string_app_cons. cbn [Json.escape]. by rewrite IH, string_app_assoc.
Qed.

Lemma string_app_nil_l (t : string) : "" +:+ t = t.
Proof. reflexivity. Qed.

Lemma string_app_nil_r (s : string) : s +:+ "" = s.
Proof. induction s as [|a s IH]; [done|]. by rewrite string_app_cons, IH. Qed.

Lemma string_concat_cons (sep x : string) (parts : list string) :
  parts ≠ [] →
  String.concat sep (x :: parts) = x +:+ sep +:+ String.concat sep parts.
Proof. by destruct parts. Qed.

(** Push every append to the right. *)
Ltac flatten_appends :=
  repeat first [ rewrite string_app_cons
               | rewrite string_app_nil_l
               | rewrite string_app_assoc ].

(** *** The chunks of the write statement *)

Lemma write_chunks_ok chunk chunks written :
  Dump.has_surrogate chunk = false →
  Dump.write_chunks (Ok chunk :: chunks) written
    = Dump.write_chunks chunks (written +:+ chunk).
Proof. intros Hc. cbn [Dump.write_chunks]. by rewrite Hc. Qed.

(** Escaping touches ASCII characters only, so it neither makes nor hides a
    surrogate. *)
Lemma surrogate_after_escape_char lead c t :
  Dump.surrogate_after lead (Json.escape_char c +:+ t)
    = Dump.surrogate_after lead (String c t).
Proof. destruct lead, c as [[] [] [] [] [] [] [] []]; reflexivity. Qed.

Lemma surrogate_after_escape lead s t :
  Dump.surrogate_after lead (Json.escape s +:+ t)
    = Dump.surrogate_after lead (s +:+ t).
Proof.
  revert lead. induction s as [|c s IH]; intros lead; [done|].
  cbn [Json.escape].
  rewrite string_app_assoc, surrogate_after_escape_char, string_app_cons.
  cbn [Dump.surrogate_after]. by rewrite IH.
Qed.

Lemma surrogate_after_quote lead s :
  Dump.surrogate_after lead (s +:+ String Json.quote "")
    = Dump.surrogate_after lead s.
Proof.
  revert lead. induction s as [|c s IH]; intros lead.
  - by destruct lead.
  - rewrite string_app_cons. cbn [Dump.surrogate_after]. by rewrite IH.
Qed.

Lemma has_surrogate_token s :
  Dump.has_surrogate (Json.py_encode_basestring s) = Dump.has_surrogate s.
Proof.
  unfold Dump.has_surrogate, Json.py_encode_basestring.
  cbn [Dump.surrogate_after andb orb].
  change (Dump.is_lead Json.quote) with false.
  by rewrite surrogate_after_escape, surrogate_after_quote.
Qed.

(** The chunks of one record. *)
Lemma values_from_record first p c vs :
  Dump.values_from first 2 (Dataset.record p c :: vs)
    = [Ok ((if first then "[" else ",") +:+ Json.newline_indent 2 1);
       Ok "{"; Ok (Json.newline_indent 2 2);
       Ok (Json.py_encode_basestring "prompt"); Ok ": ";
       Ok (Json.py_encode_basestring p);
       Ok ("," +:+ Json.newline_indent 2 2);
       Ok (Json.py_encode_basestring "completion"); Ok ": ";
       Ok (Json.py_encode_basestring c);
       Ok (Json.newline_indent 2 1); Ok "}"]
      ++ Dump.values_from false 2 vs.
Proof. reflexivity. Qed.


(** Writing one record: the bracket or the comma, then the object. *)
Lemma write_chunks_record first p c vs rest written :
  Dump.has_surrogate p = false → Dump.has_surrogate c = false →
  Dump.write_chunks
    (Dump.values_from first 2 (Dataset.record p c :: vs) ++ rest) written
    = Dump.write_chunks (Dump.values_from false 2 vs ++ rest)
        (written +:+ ((if first then "[" else ",") +:+ "
  ") +:+ Layout.record_text (Dump.record_tokens (p, c))).
Proof.
  intros Hp Hc. rewrite values_from_record, <- app_assoc. cbn [app].
  pose proof (has_surrogate_token p) as Hp'. rewrite Hp in Hp'.
  pose proof (has_surrogate_token c) as Hc'. rewrite Hc in Hc'.
  rewrite !write_chunks_ok by (done || by destruct first).
  f_equal. unfold Layout.record_text, Dump.record_tokens. cbn [fst snd].
  destruct first; by flatten_appends.
Qed.

(** Writing the records after the first: a comma before each. *)
Lemma write_chunks_records records rest written :
  Forall (λ r, Dump.has_surrogate r.1 = false
               ∧ Dump.has_surrogate r.2 = false) records →
  Dump.write_chunks
    (Dump.values_from false 2 ((λ r, Dataset.record r.1 r.2) <$> records)
       ++ rest) written
    = Dump.write_chunks rest
        (fold_left (λ text tok, text +:+ ",
  " +:+ Layout.record_text tok) (Dump.record_tokens <$> records) written).
Proof.
  intros Hall. revert written.
  induction Hall as [|[p c] records [Hp Hc] _ IH]; intros written; [done|].
  cbn [fmap list_fmap fst snd fold_left].
  rewrite write_chunks_record by done. by rewrite IH.
Qed.

Lemma fold_left_concat toks pre tok :
  fold_left (λ text t, text +:+ ",
  " +:+ Layout.record_text t) toks (pre +:+ Layout.record_text tok)
    = pre +:+ String.concat ",
  " (List.map Layout.record_text (tok :: toks)).
Proof.
  revert pre tok. induction toks as [|tok' toks IH]; intros pre tok; [done|].
  cbn [fold_left]. rewrite <- (string_app_assoc _ _ (Layout.record_text tok')).
  rewrite IH. cbn [List.map].
  rewrite (string_concat_cons _ (Layout.record_text tok)) by done.
  by rewrite !string_app_assoc.
Qed.


(** *** The tokens the encoder writes *)

Lemma read_body_escape_char c t :
  Layout.read_body (Json.escape_char c +:+ t) = String c <$> Layout.read_body t.
Proof. destruct c as [[] [] [] [] [] [] [] []]; reflexivity. Qed.

Lemma read_token_encode s :
  Layout.read_token (Json.py_encode_basestring s) = Some s.
Proof.
  unfold Json.py_encode_basestring. cbn [Layout.read_token].
  rewrite decide_True by done.
  induction s as [|c s IH]; [done|]. cbn [Json.escape].
  by rewrite string_app_assoc, read_body_escape_char, IH.
Qed.

Lemma contains_newline_escape_char c t :
  Py.contains "010" (Json.escape_char c +:+ t) = Py.contains "010" t.
Proof. destruct c as [[] [] [] [] [] [] [] []]; reflexivity. Qed.

Lemma contains_newline_encode s :
  Py.contains "010" (Json.py_encode_basestring s) = false.
Proof.
  unfold Json.py_encode_basestring. cbn [Py.contains].
  rewrite decide_False by done.
  induction s as [|c s IH]; [done|]. cbn [Json.escape].
  by rewrite string_app_assoc, contains_newline_escape_char.
Qed.

Lemma non_ascii_escape_char c t :
  Layout.non_ascii (Json.escape_char c +:+ t) = Layout.non_ascii (String c t).
Proof. destruct c as [[] [] [] [] [] [] [] []]; reflexivity. Qed.

Lemma non_ascii_encode s :
  Layout.non_ascii (Json.py_encode_basestring s) = Layout.non_ascii s.
Proof.
  unfold Json.py_encode_basestring.
  change (Layout.non_ascii (String Json.quote ?t)) with (Layout.non_ascii t).
  induction s as [|c s IH]; [done|]. cbn [Json.escape].
  rewrite string_app_assoc, non_ascii_escape_char.
  cbn [Layout.non_ascii]. by rewrite IH.
Qed.

Lemma escape_char_plain c :
  Layout.plain_char c = true → Json.escape_char c = String c "".
Proof.
  destruct c as [[] [] [] [] [] [] [] []]; intros Hc;
    first [reflexivity | cbv in Hc; discriminate Hc].
Qed.

Lemma escape_plain s : Layout.is_plain s = true → Json.escape s = s.
Proof.
  induction s as [|c s IH]; [done|]. cbn [Layout.is_plain Json.escape].
  intros [Hc Hs]%andb_prop. by rewrite (escape_char_plain c Hc), (IH Hs).
Qed.

Lemma is_token_encode s : Layout.is_token (Json.py_encode_basestring s) s.
Proof.
  split; [apply read_token_encode|].
  split; [apply contains_newline_encode|].
  split; [apply non_ascii_encode|].
  intros Hplain. unfold Json.py_encode_basestring. by rewrite escape_plain.
Qed.

Lemma record_tokens_are_tokens (records : list (string * string)) :
  Forall2 (λ tok r, Layout.is_token tok.1 r.1 ∧ Layout.is_token tok.2 r.2)
    (Dump.record_tokens <$> records) records.
Proof.
  induction records as [|r records IH]; constructor; [|done].
  split; apply is_token_encode.
Qed.

(** Records without surrogates are written to the end. *)
Lemma write_file_records (records : list (string * string))
    (fs : gmap string string) :
  Forall (λ r, Dump.has_surrogate r.1 = false
               ∧ Dump.has_surrogate r.2 = false) records →
  Dump.write_file (Ok tt) ((λ r, Dataset.record r.1 r.2) <$> records) fs
    = (<[Dataset.output_file :=
           Layout.array_text (Dump.record_tokens <$> records)]> fs, Ok tt).
Proof.
  intros Hall. unfold Dump.write_file, Dump.iterencode_values.
  destruct Hall as [|[p c] records [Hp Hc] Hall]; [done|].
  cbn [fmap list_fmap fst snd].
  rewrite write_chunks_record, write_chunks_records by done.
  rewrite string_app_nil_l, fold_left_concat.
  rewrite !write_chunks_ok by done. cbn [Dump.write_chunks].
  do 2 f_equal. unfold Layout.array_text. cbn [fmap list_fmap].
  by flatten_appends.
Qed.

(** The text the encoder gives in one piece is the text of the chunks. *)
Lemma join_concat sep parts : Json.join sep parts = String.concat sep parts.
Proof.
  induction parts as [|x parts IH]; [done|].
  destruct parts as [|y parts]; [done|].
  rewrite string_concat_cons by done. rewrite <- IH. reflexivity.
Qed.

Lemma encode_record p c :
  Json.encode 2 1
    (Json.JObj [("prompt", Json.JStr p); ("completion", Json.JStr c)])
    = Layout.record_text (Dump.record_tokens (p, c)).
Proof.
  cbn [Json.encode List.map fst snd].
  unfold Layout.record_text, Dump.record_tokens, Json.newline_indent.
  cbn [Json.join Json.spaces Nat.mul Nat.add fst snd].
  flatten_appends. reflexivity.
Qed.

Lemma dumps_list_records (records : list (string * string)) :
  Dataset.dumps_list 2 ((λ r, Dataset.record r.1 r.2) <$> records)
    = Ok (Layout.array_text (Dump.record_tokens <$> records)).
Proof.
  unfold Dataset.dumps_list.
  assert (Dataset.serializable_list
            ((λ r, Dataset.record r.1 r.2) <$> records)
          = Ok ((λ r, Json.JObj [("prompt", Json.JStr r.1);
                                 ("completion", Json.JStr r.2)]) <$> records))
    as ->.
  { induction records as [|r records IH]; [done|].
    cbn [fmap list_fmap Dataset.serializable_list Dataset.record
         Dataset.serializable mbind result_bind] in *. by rewrite IH. }
  cbn [mbind result_bind]. f_equal.
  destruct records as [|r records]; [done|].
  set (rs := r :: records).
  change (Json.encode 2 0 (Json.JArr (_ <$> rs))) with
    ("[" +:+ Json.newline_indent 2 1
     +:+ Json.join ("," +:+ Json.newline_indent 2 1)
           (List.map (Json.encode 2 1)
              ((λ r, Json.JObj [("prompt", Json.JStr r.1);
                                ("completion", Json.JStr r.2)]) <$> rs))
     +:+ Json.newline_indent 2 0 +:+ "]").
  rewrite join_concat. unfold Layout.array_text. subst rs.
  cbn [fmap list_fmap List.map]. fold (@fmap list _ _ _ Dump.record_tokens records).
  assert (∀ l : list (string * string),
            List.map (Json.encode 2 1)
              ((λ r, Json.JObj [("prompt", Json.JStr r.1);
                                ("completion", Json.JStr r.2)]) <$> l)
            = List.map Layout.record_text (Dump.record_tokens <$> l)) as Hmap.
  { induction l as [|[p c] l IH]; [done|].
    cbn [fmap list_fmap List.map fst snd] in *.
    by rewrite IH, <- encode_record. }
  specialize (Hmap (r :: records)). cbn [fmap list_fmap List.map] in Hmap.
  rewrite Hmap. by flatten_appends.
Qed.

(** So the write of [Dataset.write_converted] is the write that runs to
    its end. *)
Lemma write_converted_is_write_file (records : list (string * string))
    (fs : gmap string string) :
  Forall (λ r, Dump.has_surrogate r.1 = false
               ∧ Dump.has_surrogate r.2 = false) records →
  Dataset.write_converted ((λ r, Dataset.record r.1 r.2) <$> records) fs
    = Ok (Dump.write_file (Ok tt)
            ((λ r, Dataset.record r.1 r.2) <$> records) fs).1.
Proof.
  intros Hall. rewrite write_file_records by done.
  unfold Dataset.write_converted. by rewrite dumps_list_records.
Qed.

(** C9 (lines 186-189): when the file can be opened and no text of the
    records holds an unpaired surrogate, the write statement ends normally
    and leaves at the fixed absolute path
    [/content/dataset_2k_prompt_completion.json], and at no other, an array
    of the records in their order, pretty-printed: the brackets on lines of
    their own, each object two spaces in with its two keys four spaces in,
    a comma after every object but the last.  Each text is written as a JSON
    string on one line that reads back as the text and holds its non-ASCII
    characters as they are; a text that needs no escape is written as it
    is, between quotes. *)
Theorem write_file_pretty_json
    (records : list (string * string)) (fs : gmap string string) :
  Forall (λ r, Dump.has_surrogate r.1 = false
               ∧ Dump.has_surrogate r.2 = false) records →
  ∃ tokens : list (string * string),
    Dump.write_file (Ok tt) ((λ r, Dataset.record r.1 r.2) <$> records) fs
      = (<[Dataset.output_file := Layout.array_text tokens]> fs, Ok tt)
    ∧ Dataset.output_file = "/content/dataset_2k_prompt_completion.json"
    ∧ String.prefix "/" Dataset.output_file = true
    ∧ Forall2 (λ tok r, Layout.is_token tok.1 r.1 ∧ Layout.is_token tok.2 r.2)
        tokens records.
Proof.
  intros Hall. exists (Dump.record_tokens <$> records).
  split; [by apply write_file_records|].
  split; [done|]. split; [done|]. apply record_tokens_are_tokens.
Qed.

(** Two records, one with an accented letter (two bytes in UTF-8), a quote
    and a line break in it. *)
Lemma write_file_pretty_json_witness :
  let text := String "195" (String "169" (String "034" (String "010" "x"))) in
  let records := [("p", text); ("q", "d")] in
  ∃ tokens : list (string * string),
    Dump.write_file (Ok tt) ((λ r, Dataset.record r.1 r.2) <$> records) ∅
      = (<[Dataset.output_file := Layout.array_text tokens]> ∅, Ok tt)
    ∧ Dataset.output_file = "/content/dataset_2k_prompt_completion.json"
    ∧ String.prefix "/" Dataset.output_file = true
    ∧ Forall2 (λ tok r, Layout.is_token tok.1 r.1 ∧ Layout.is_token tok.2 r.2)
        tokens records.
Proof.
  intros text records.
  apply (write_file_pretty_json records ∅).
  repeat constructor.
Defined.

(** A completion that begins with an unpaired surrogate, U+D800: the write
    statement ends in [UnicodeEncodeError], and the file, already replaced,
    is cut off after the key of that text. *)
Lemma write_file_lone_surrogate_raises :
  let completion := String "237" (String "160" (String "128" "x")) in
  Dump.write_file (Ok tt) [Dataset.record "ok" completion] ∅
    = (<[Dataset.output_file := "[
  {
    " +:+ Layout.in_quotes "prompt" +:+ ": " +:+ Layout.in_quotes "ok" +:+ ",
    " +:+ Layout.in_quotes "completion" +:+ ": "]> ∅,
       Raise UnicodeEncodeError).
Proof. reflexivity. Qed.

(** What the loop of the cell would append, a set, is refused by the
    encoder. *)
Example dumps_set_raises :
  Dataset.dumps_list 2 [Dataset.VSet [Dataset.VJson (Json.JStr "x")]]
    = Raise (TypeError "Object of type set is not JSON serializable").
Proof. reflexivity. Qed.

(** ** Properties of the training budget *)

Section training_budget.
Variable args : Trainer.TrainingArguments.

Lemma update_step_state_at g :
  Trainer.update_step args (Trainer.state_at args g) = Trainer.state_at args (S g).
Proof.
  unfold Trainer.update_step, Trainer.state_at. cbn [Trainer.global_step
    Trainer.log_history]. f_equal.
  rewrite seq_S, flat_map_app. simpl. by rewrite app_nil_r.
Qed.

(** An epoch started below the budget runs its updates or stops on reaching
    the budget, whichever comes first. *)
Lemma epoch_loop_state_at budget updates g :
  g < budget →
  Trainer.epoch_loop args budget updates (Trainer.state_at args g)
    = (Trainer.state_at args (min (g + updates) budget),
       bool_decide (budget ≤ g + updates)).
Proof.
  revert g. induction updates as [|updates IH]; intros g Hg.
  - cbn [Trainer.epoch_loop]. rewrite Nat.add_0_r, Nat.min_l by lia.
    by rewrite bool_decide_eq_false_2 by lia.
  - cbn [Trainer.epoch_loop]. rewrite update_step_state_at.
    cbn [Trainer.state_at Trainer.global_step]. case_decide as Hb.
    + assert (budget = S g) as -> by lia.
      rewrite Nat.min_r by lia. by rewrite bool_decide_eq_true_2 by lia.
    + fold (Trainer.state_at args (S g)). rewrite IH by lia.
      replace (S g + updates) with (g + S updates) by lia. done.
Qed.

Lemma training_loop_state_at budget per_epoch epochs g :
  g < budget → 1 ≤ per_epoch →
  Trainer.training_loop args budget per_epoch epochs (Trainer.state_at args g)
    = Trainer.state_at args (min (g + epochs * per_epoch) budget).
Proof.
  intros Hg Hper. revert g Hg. induction epochs as [|epochs IH]; intros g Hg.
  - cbn [Trainer.training_loop]. by rewrite Nat.mul_0_l, Nat.add_0_r, Nat.min_l by lia.
  - cbn [Trainer.training_loop]. rewrite epoch_loop_state_at by done.
    rewrite (bool_decide_eq_false_2 (per_epoch = 0)) by lia.
    rewrite orb_false_r. case_bool_decide as Hb.
    + rewrite !Nat.min_r by lia. done.
    + rewrite Nat.min_l by lia. rewrite IH by lia. f_equal. lia.
Qed.

End training_budget.

Lemma updates_per_epoch_notebook n :
  Trainer.updates_per_epoch Trainer.training_arguments n = (n + 7) / 8.
Proof.
  unfold Trainer.updates_per_epoch, Trainer.len_dataloader, Trainer.ceil_div.
  cbn [Trainer.per_device_train_batch_size Trainer.gradient_accumulation_steps
       Trainer.training_arguments].
  replace (n + 8 - 1) with (n + 7) by lia.
  replace ((n + 7) / 8 + 1 - 1) with ((n + 7) / 8) by lia.
  apply Nat.div_1_r.
Qed.

(** With the notebook's arguments the run on any non-empty train set ends in
    the state after 250 updates. *)
Lemma train_notebook n :
  1 ≤ n →
  Trainer.train Trainer.training_arguments n
    = Trainer.finish (Trainer.state_at Trainer.training_arguments 250).
Proof.
  intros Hn. unfold Trainer.train, Trainer.total_steps, Trainer.epochs,
    Trainer.num_update_steps_per_epoch.
  rewrite updates_per_epoch_notebook.
  cbn [Trainer.max_steps Trainer.training_arguments].
  change (0 <? 250)%Z with true. cbn iota.
  change (Z.to_nat 250) with 250.
  set (u := (n + 7) / 8).
  assert (1 ≤ u) as Hu by (subst u; div_bounds (n + 7) 8; lia).
  rewrite Nat.max_l by lia.
  change {| Trainer.global_step := 0; Trainer.log_history := [] |}
    with (Trainer.state_at Trainer.training_arguments 0).
  rewrite training_loop_state_at by lia. do 2 f_equal.
  apply Nat.min_r. div_bounds 250 u.
  destruct (0 <? 250 mod u) eqn:Hm.
  - apply Nat.ltb_lt in Hm. nia.
  - apply Nat.ltb_ge in Hm. nia.
Qed.

(** C6, as amended: on every non-empty train set the run stops at exactly
    250 updates, whatever the losses and however short an epoch is, and
    writes a training-loss record every 10 steps: 25 records, at steps 10,
    20, ..., 250. *)
Theorem train_stops_at_max_steps (n : nat) :
  1 ≤ n →
  Trainer.global_step (Trainer.train Trainer.training_arguments n) = 250 ∧
  Trainer.loss_steps (Trainer.train Trainer.training_arguments n)
    = List.map (λ k, 10 * k) (seq 1 25) ∧
  length (Trainer.loss_steps (Trainer.train Trainer.training_arguments n)) = 25.
Proof.
  intros Hn. rewrite train_notebook by done. by vm_compute.
Qed.

(** A train set of eight examples, one batch to the epoch: 250 updates all
    the same. *)
Lemma train_stops_at_max_steps_witness :
  1 ≤ 8 ∧
  Trainer.global_step (Trainer.train Trainer.training_arguments 8) = 250 ∧
  length (Trainer.loss_steps (Trainer.train Trainer.training_arguments 8)) = 25.
Proof.
  assert (1 ≤ 8) as Hn by lia. split; [exact Hn|].
  destruct (train_stops_at_max_steps 8 Hn) as (Hg & _ & Hl). by split.
Defined.

(** C6, as stated, fails on the notebook's own train set of 4000 examples:
    an epoch is 500 updates, so the epoch budget does not bind, and yet the
    run writes 25 training-loss records, not 250. *)
Lemma train_logs_fewer_records_than_steps :
  Trainer.updates_per_epoch Trainer.training_arguments 4000 = 500 ∧
  Trainer.global_step (Trainer.train Trainer.training_arguments 4000) = 250 ∧
  length (Trainer.loss_steps (Trainer.train Trainer.training_arguments 4000)) = 25 ∧
  length (Trainer.loss_steps (Trainer.train Trainer.training_arguments 4000))
    ≠ Z.to_nat (Trainer.max_steps Trainer.training_arguments).
Proof. by vm_compute. Qed.

(** ** Properties of the generation cell *)

Lemma texts_app ids1 ids2 :
  Toy.texts (ids1 ++ ids2) = Toy.texts ids1 +:+ Toy.texts ids2.
Proof.
  induction ids1 as [|t ids1 IH]; [done|].
  cbn [app Toy.texts]. by rewrite IH, string_app_assoc.
Qed.

#[local] Instance toy_tokenizer : Tokenizer := {|
  token := Toy.toy_token;
  is_special := Toy.special;
  tokenize := λ s, Toy.Bos :: Toy.scan 0 s;
  detokenize := Toy.texts;
  eos_token_id := Toy.Eos;
  detokenize_app := texts_app
|}.

Lemma toy_generate_extends (smp : unit) (ids : list Toy.toy_token)
    (max_new_tokens : nat) (pad : Toy.toy_token) :
  ∃ new rest,
    [ids ++ take max_new_tokens Toy.continuation] = (ids ++ new) :: rest ∧
    length new ≤ max_new_tokens.
Proof. do 2 eexists. split; [done|]. rewrite length_take. lia. Qed.

#[local] Instance toy_model : CausalLM (H := toy_tokenizer) := {|
  sampler := unit;
  generate := λ _ ids max_new_tokens _, [ids ++ take max_new_tokens Toy.continuation];
  generate_extends := toy_generate_extends
|}.

Lemma format_prompt query :
  Py.format Generation.prompt_template [("query", query)]
    = Ok (Generation.template_head +:+ query +:+ Generation.template_tail).
Proof. reflexivity. Qed.

(** C10, as amended: [get_completion] decodes the first generated row only,
    with the special tokens left out; that row starts with the ids of the
    formatted prompt, so what is returned is the prompt as decoded without
    its special tokens, followed by the decoded continuation of at most
    1000 tokens. *)
Theorem get_completion_returns_prompt_and_continuation
    `{CausalLM} (smp : sampler) (query : string) :
  ∃ prompt new rest,
    prompt = Generation.template_head +:+ query +:+ Generation.template_tail ∧
    generate smp (tokenize prompt) 1000 eos_token_id
      = (tokenize prompt ++ new) :: rest ∧
    length new ≤ 1000 ∧
    Generation.get_completion smp query
      = Ok (Generation.decode (tokenize prompt) true
              +:+ Generation.decode new true).
Proof.
  set (prompt := Generation.template_head +:+ query +:+ Generation.template_tail).
  destruct (generate_extends smp (tokenize prompt) 1000 eos_token_id)
    as (new & rest & Hgen & Hlen).
  exists prompt, new, rest. repeat split; try done.
  unfold Generation.get_completion. rewrite format_prompt.
  cbn [mbind result_bind]. fold prompt. rewrite Hgen.
  cbn [Py.index lookup list_lookup mbind result_bind].
  unfold Generation.decode. by rewrite filter_app, detokenize_app.
Qed.

(** The theorem for the byte-level tokenizer and the fixed continuation. *)
Lemma get_completion_returns_prompt_and_continuation_witness :
  ∃ new,
    length new ≤ 1000 ∧
    Generation.get_completion (H0 := toy_model) tt "What is X?"
      = Ok (Generation.decode
              (tokenize (Generation.template_head +:+ "What is X?"
                           +:+ Generation.template_tail)) true
            +:+ Generation.decode new true).
Proof.
  destruct (get_completion_returns_prompt_and_continuation
              (H0 := toy_model) tt "What is X?")
    as (prompt & new & rest & -> & _ & Hlen & Hres).
  exists new. split; [exact Hlen | exact Hres].
Defined.

(** C10, as stated, fails where the turn markers are special tokens, as they
    are for Gemma: the string returned for the notebook's query is the one
    the notebook shows, with the markers gone, and the formatted prompt is
    not a prefix of it. *)
Lemma get_completion_drops_turn_markers :
  Generation.get_completion (H0 := toy_model) tt
      "Ask a question about Overfitting/Underfitting."
    = Ok "
  
   user
   Ask a question about Overfitting/Underfitting.
   

   model
  What causes overfitting and how can it be prevented?" ∧
  String.prefix
    (Generation.template_head +:+ "Ask a question about Overfitting/Underfitting."
       +:+ Generation.template_tail)
    "
  
   user
   Ask a question about Overfitting/Underfitting.
   

   model
  What causes overfitting and how can it be prevented?" = false.
Proof. split; reflexivity. Qed.

(** * Further properties of the cells *)

(** ** Target-module discovery *)

Lemma find_all_linear_names_elements mdl :
  LoRA.find_all_linear_names mdl
    = Ok (elements (LoRA.quantized_segments (LoRA.named_modules mdl)
                      ∖ {[ LoRA.lm_head ]})).
Proof. unfold LoRA.find_all_linear_names. by rewrite collect_ok. Qed.

(** X1: a model that has every named sublayer of another one gets every
    target name the other one gets: more sublayers never remove a name. *)
Theorem find_all_linear_names_monotone (mdl1 mdl2 : LoRA.model) names1 names2 :
  (∀ nm, nm ∈ LoRA.named_modules mdl1 → nm ∈ LoRA.named_modules mdl2) →
  LoRA.find_all_linear_names mdl1 = Ok names1 →
  LoRA.find_all_linear_names mdl2 = Ok names2 →
  ∀ s, s ∈ names1 → s ∈ names2.
Proof.
  rewrite !find_all_linear_names_elements. intros Hsub H1 H2 s.
  inversion H1; inversion H2; subst.
  rewrite !elem_of_elements, !elem_of_difference, !elem_of_quantized_segments.
  intros [(name & m & Hin & Hq & Hseg) Hne]. split; [|done].
  exists name, m. auto.
Qed.

(** Two models: a quantized attention layer, and the same with an MLP layer
    and a quantized head besides. *)
Lemma find_all_linear_names_monotone_witness :
  let q4 := {| LoRA.mro := ["Linear4bit"; "Linear"; "Module"; "object"] |} in
  let small := {| LoRA.named_modules := [("layers.0.q_proj", q4)] |} in
  let large := {| LoRA.named_modules :=
                    [("lm_head", q4); ("layers.0.up_proj", q4);
                     ("layers.0.q_proj", q4)] |} in
  LoRA.find_all_linear_names small = Ok ["q_proj"] ∧
  LoRA.find_all_linear_names large = Ok ["up_proj"; "q_proj"] ∧
  "q_proj" ∈ ["up_proj"; "q_proj"].
Proof.
  intros q4 small large.
  assert (LoRA.find_all_linear_names small = Ok ["q_proj"]) as H1
    by (by vm_compute).
  assert (LoRA.find_all_linear_names large = Ok ["up_proj"; "q_proj"]) as H2
    by (by vm_compute).
  split; [exact H1|]. split; [exact H2|].
  assert (∀ nm, nm ∈ LoRA.named_modules small → nm ∈ LoRA.named_modules large)
    as Hsub.
  { intros nm Hnm. apply list_elem_of_singleton in Hnm as ->.
    do 2 apply list_elem_of_further. apply list_elem_of_here. }
  exact (find_all_linear_names_monotone small large ["q_proj"]
           ["up_proj"; "q_proj"] Hsub H1 H2 "q_proj" (list_elem_of_here _ _)).
Defined.

(** X2: the names found depend on which named sublayers there are, not on
    the order of the traversal nor on a sublayer being met twice: two
    traversals with the same pairs give the same names, up to order. *)
Theorem find_all_linear_names_order_free (mdl1 mdl2 : LoRA.model) :
  (∀ nm, nm ∈ LoRA.named_modules mdl1 ↔ nm ∈ LoRA.named_modules mdl2) →
  ∃ names1 names2,
    LoRA.find_all_linear_names mdl1 = Ok names1 ∧
    LoRA.find_all_linear_names mdl2 = Ok names2 ∧
    names1 ≡ₚ names2.
Proof.
  intros Hsame. rewrite !find_all_linear_names_elements.
  do 2 eexists. split; [done|]. split; [done|].
  apply NoDup_Permutation; [apply NoDup_elements..|].
  intros s.
  rewrite !elem_of_elements, !elem_of_difference, !elem_of_quantized_segments.
  split; intros [(name & m & Hin & Hq & Hseg) Hne]; (split; [|done]);
    exists name, m; (split; [by apply Hsame | done]).
Qed.

(** A traversal, and the same backwards with one sublayer repeated. *)
Lemma find_all_linear_names_order_free_witness :
  let q4 := {| LoRA.mro := ["Linear4bit"; "Linear"; "Module"; "object"] |} in
  let forwards := {| LoRA.named_modules :=
                       [("layers.0.q_proj", q4); ("lm_head", q4);
                        ("layers.0.up_proj", q4)] |} in
  let backwards := {| LoRA.named_modules :=
                        [("layers.0.up_proj", q4); ("lm_head", q4);
                         ("layers.0.q_proj", q4); ("layers.0.up_proj", q4)] |} in
  ∃ names1 names2,
    LoRA.find_all_linear_names forwards = Ok names1 ∧
    LoRA.find_all_linear_names backwards = Ok names2 ∧
    names1 ≡ₚ names2.
Proof.
  intros q4 forwards backwards.
  apply (find_all_linear_names_order_free forwards backwards).
  intros nm. unfold forwards, backwards. cbn [LoRA.named_modules].
  rewrite !elem_of_cons, !elem_of_nil. tauto.
Defined.

(** X3: no target name is found exactly when every sublayer of the
    quantized class is a head, that is, has ['lm_head'] for its last
    segment; in particular when the model has no quantized sublayer. *)
Theorem find_all_linear_names_empty_iff (mdl : LoRA.model) :
  LoRA.find_all_linear_names mdl = Ok [] ↔
  ∀ name m, (name, m) ∈ LoRA.named_modules mdl →
            LoRA.isinstance m LoRA.Linear4bit = true →
            is_last_segment name LoRA.lm_head.
Proof.
  rewrite find_all_linear_names_elements. split.
  - intros Hnil name m Hin Hq.
    destruct (segment_total name) as [seg Hseg].
    apply segment_is_last_segment in Hseg.
    destruct (decide (seg = LoRA.lm_head)) as [<-|Hne]; [done|].
    assert (seg ∈ elements (LoRA.quantized_segments (LoRA.named_modules mdl)
                              ∖ {[ LoRA.lm_head ]})) as Hel.
    { rewrite elem_of_elements, elem_of_difference, elem_of_quantized_segments.
      split; [by exists name, m | set_solver]. }
    inversion Hnil as [Hnil']. rewrite Hnil' in Hel. by apply elem_of_nil in Hel.
  - intros Hall. f_equal. apply elements_empty_iff.
    apply set_equiv. intros s. split; [|set_solver].
    rewrite elem_of_difference, elem_of_quantized_segments.
    intros [(name & m & Hin & Hq & Hseg) Hne]. exfalso. apply Hne.
    apply elem_of_singleton.
    specialize (Hall name m Hin Hq).
    apply segment_is_last_segment in Hseg, Hall. congruence.
Qed.

(** X4: the conditional in [names[0] if len(names) == 1 else names[-1]]
    makes no difference: for every name, [names[-1]] alone is the same. *)
Theorem segment_is_last_index (name : string) :
  LoRA.segment name = Py.index_neg (Py.split "." name) 1.
Proof.
  unfold LoRA.segment. case_decide as Hlen; [|done].
  unfold Py.index_neg. rewrite decide_True by lia. by rewrite Hlen.
Qed.

(** X5: [split] loses nothing and cuts at every separator: joining the parts
    with the separator gives the text back, and no part holds the
    separator. *)
Theorem split_concat (sep : ascii) (s : string) :
  String.concat (String sep "") (Py.split sep s) = s ∧
  Forall (λ part, Py.contains sep part = false) (Py.split sep s).
Proof.
  induction s as [|c s [IHc IHf]]; [by split; [|repeat constructor]|].
  pose proof (split_nonempty sep s) as Hne.
  cbn [Py.split]. case_decide as Hc.
  - subst c. split; [|by constructor].
    rewrite string_concat_cons by done. by rewrite IHc.
  - destruct (Py.split sep s) as [|seg segs] eqn:E; [done|].
    apply Forall_cons in IHf as [Hseg Hsegs].
    split.
    + destruct segs as [|seg' segs'].
      * cbn [String.concat] in *. by rewrite IHc.
      * rewrite string_concat_cons in IHc by done.
        rewrite string_concat_cons by done.
        rewrite string_app_cons. by rewrite IHc.
    + constructor; [|done]. cbn [Py.contains]. by rewrite decide_False.
Qed.

(** ** Partitioning *)

Section partitioning_further.
Context `{NumpyRandom} {R : Type}.
Implicit Types df : Pandas.dataframe R.

(** X6: with either of the notebook's fractions, a fifth and a half,
    [train_test_split] is refused exactly on a frame of fewer than two
    rows; the process-wide generator and the seed have no say in it. *)
Theorem notebook_split_refused_iff (g : rng) df (rs : Sklearn.random_state) :
  (is_ok (Sklearn.train_test_split g df Pipeline.test_size_1 rs) = false
     ↔ length df ≤ 1) ∧
  (is_ok (Sklearn.train_test_split g df Pipeline.test_size_2 rs) = false
     ↔ length df ≤ 1).
Proof.
  pose proof (ceil_fifth (length df)) as H5.
  pose proof (ceil_half (length df)) as H2.
  div_bounds (length df + 4) 5. div_bounds (length df + 1) 2.
  split; split.
  - intros Hno. destruct (decide (length df ≤ 1)) as [|Hlt]; [done|].
    destruct (train_test_split_ok g df Pipeline.test_size_1 rs)
      as (train & test & Hok & _); [done|lia|].
    by rewrite Hok in Hno.
  - intros Hn. apply train_test_split_empty. lia.
  - intros Hno. destruct (decide (length df ≤ 1)) as [|Hlt]; [done|].
    destruct (train_test_split_ok g df Pipeline.test_size_2 rs)
      as (train & test & Hok & _); [done|lia|].
    by rewrite Hok in Hno.
  - intros Hn. apply train_test_split_empty. lia.
Qed.

(** X7: with either of the notebook's fractions, a split that succeeds
    loses and repeats no row: the two parts together are the frame, the
    train part is not empty, and the test part has a fifth, respectively a
    half, of the rows, rounded up. *)
Theorem notebook_split_conserves_rows (g : rng) df (f : Sklearn.fraction)
    (rs : Sklearn.random_state) (train test : Pandas.dataframe R) :
  f = Pipeline.test_size_1 ∨ f = Pipeline.test_size_2 →
  Sklearn.train_test_split g df f rs = Ok (train, test) →
  test ++ train ≡ₚ df ∧
  train ≠ [] ∧
  (f = Pipeline.test_size_1 → length test = (length df + 4) / 5) ∧
  (f = Pipeline.test_size_2 → length test = (length df + 1) / 2).
Proof.
  intros Hf Hok.
  assert (Sklearn.in_range f = true) as Hrange by (by destruct Hf as [->| ->]).
  destruct (decide (length df ≤ Sklearn.ceil_mul f (length df))) as [Hle|Hlt].
  { pose proof (train_test_split_empty g df f rs Hle) as Hno.
    by rewrite Hok in Hno. }
  destruct (train_test_split_ok g df f rs)
    as (train' & test' & Hok' & Htest & Htrain & Hperm); [done|lia|].
  rewrite Hok in Hok'. inversion Hok'; subst train' test'.
  split; [done|]. split; [intros ->; simpl in Htrain; lia|].
  split; intros ->; rewrite Htest; [apply ceil_fifth | apply ceil_half].
Qed.

(** X8: cell 3.2 succeeds exactly on frames of six rows or more. *)
Theorem split_cell_succeeds_iff (g : rng) df :
  is_ok (Pipeline.split_cell g df) = true ↔ 6 ≤ length df.
Proof.
  split.
  - intros Hok. destruct (decide (6 ≤ length df)) as [|Hlt]; [done|].
    rewrite split_cell_small in Hok by lia. done.
  - intros Hn. destruct (split_cell_ok g df Hn) as (p & -> & _). done.
Qed.

(** X9: the sizes cell 3.2 arrives at: a fifth of the rows, rounded up, is
    held out and the rest trained on; the held-out rows are halved, the odd
    row going to the test partition, so that the validation partition is
    never the larger of the two. *)
Theorem split_cell_sizes (g : rng) df (p : Pipeline.partitions R) :
  Pipeline.split_cell g df = Ok p →
  length (Pipeline.temp_data p) = (length df + 4) / 5 ∧
  length (Pipeline.train_data p) + length (Pipeline.temp_data p) = length df ∧
  length (Pipeline.eval_data p) + length (Pipeline.test_data p)
    = length (Pipeline.temp_data p) ∧
  length (Pipeline.eval_data p) ≤ length (Pipeline.test_data p)
    ≤ length (Pipeline.eval_data p) + 1.
Proof.
  intros Hp.
  destruct (decide (length df < 6)) as [Hlt|Hge].
  { pose proof (split_cell_small g df Hlt) as Hno. by rewrite Hp in Hno. }
  destruct (split_cell_ok g df)
    as (p' & Hp' & Htemp & Htrain & Htest & Heval & _); [lia|].
  rewrite Hp in Hp'. inversion Hp'; subst p'.
  rewrite Htemp, Htrain, Htest, Heval.
  div_bounds (length df + 4) 5. div_bounds ((length df + 4) / 5 + 1) 2. lia.
Qed.

(** X10: what the trainer of cell 4.5 evaluates on is the validation and
    the test partition together and nothing else, and it shares no row with
    what it trains on. *)
Theorem trainer_eval_dataset_rows (g : rng) (records : list R)
    (p : Pipeline.partitions R) :
  Pipeline.split_cell g (Pandas.from_records records) = Ok p →
  Pipeline.eval_dataset (Pipeline.trainer_cell p)
    ≡ₚ Pipeline.eval_data p ++ Pipeline.test_data p ∧
  ∀ r, r ∈ Pipeline.train_dataset (Pipeline.trainer_cell p) →
       r ∉ Pipeline.eval_dataset (Pipeline.trainer_cell p).
Proof.
  intros Hp. set (df := Pandas.from_records records) in *.
  destruct (decide (length df < 6)) as [Hlt|Hge].
  { pose proof (split_cell_small g df Hlt) as Hno. by rewrite Hp in Hno. }
  destruct (split_cell_ok g df)
    as (p' & Hp' & _ & _ & _ & _ & Hp1 & Hp2); [lia|].
  rewrite Hp in Hp'. inversion Hp'; subst p'.
  unfold Pipeline.trainer_cell, Pipeline.from_pandas.
  cbn [Pipeline.eval_dataset Pipeline.train_dataset].
  split; [by rewrite <- Hp2, Permutation_app_comm|].
  pose proof (from_records_NoDup records) as Hnd. fold df in Hnd.
  rewrite <- Hp1 in Hnd. apply NoDup_app in Hnd as (_ & Hdisj & _).
  intros r Htrain Htemp. by apply (Hdisj r).
Qed.

End partitioning_further.

(** Five records split by a fifth: one test row, four train rows. *)
Lemma notebook_split_conserves_rows_witness :
  let df := Pandas.from_records ["r0"; "r1"; "r2"; "r3"; "r4"] in
  let train := [(3, "r3"); (2, "r2"); (1, "r1"); (0, "r0")] in
  let test := [(4, "r4")] in
  Sklearn.train_test_split (H:=two_state_rng) false df Pipeline.test_size_1
    Pipeline.random_state = Ok (train, test) ∧
  test ++ train ≡ₚ df ∧ train ≠ [].
Proof.
  intros df train test.
  assert (Sklearn.train_test_split (H:=two_state_rng) false df
            Pipeline.test_size_1 Pipeline.random_state = Ok (train, test))
    as Hok by reflexivity.
  split; [exact Hok|].
  pose proof (notebook_split_conserves_rows (H:=two_state_rng)
                false df Pipeline.test_size_1 Pipeline.random_state train test
                (or_introl eq_refl) Hok) as (Hperm & Hne & _).
  split; [exact Hperm | exact Hne].
Defined.

(** Twelve records: three are held out, two of them for the test. *)
Lemma split_cell_sizes_witness :
  let records := ["r0"; "r1"; "r2"; "r3"; "r4"; "r5";
                  "r6"; "r7"; "r8"; "r9"; "r10"; "r11"] in
  ∃ p, Pipeline.split_cell (H:=two_state_rng) false (Pandas.from_records records)
         = Ok p ∧
       length (Pipeline.temp_data p) = 3 ∧
       length (Pipeline.eval_data p) ≤ length (Pipeline.test_data p).
Proof.
  intros records. eexists. split; [reflexivity|].
  match goal with
  | |- context [Pipeline.temp_data ?p] =>
      destruct (split_cell_sizes (H:=two_state_rng) false
                  (Pandas.from_records records) p eq_refl)
        as (Htemp & _ & _ & Hle & _)
  end.
  split; [exact Htemp | exact Hle].
Defined.

(** Ten records: the trainer evaluates on rows 9 and 8 and trains on
    neither. *)
Lemma trainer_eval_dataset_rows_witness :
  let records := ["r0"; "r1"; "r2"; "r3"; "r4"; "r5"; "r6"; "r7"; "r8"; "r9"] in
  ∃ p, Pipeline.split_cell (H:=two_state_rng) false (Pandas.from_records records)
         = Ok p ∧
       Pipeline.eval_dataset (Pipeline.trainer_cell p)
         ≡ₚ Pipeline.eval_data p ++ Pipeline.test_data p.
Proof.
  intros records. eexists. split; [reflexivity|].
  match goal with
  | |- Pipeline.eval_dataset (Pipeline.trainer_cell ?p) ≡ₚ _ =>
      exact (proj1 (trainer_eval_dataset_rows (H:=two_state_rng) false
                      records p eq_refl))
  end.
Defined.

(** ** The data-set cell in any namespace *)





(** The cell with [v] bound to a text: the loop runs, the encoder refuses. *)
Example dataset_cell_in_v_bound :
  dataset_cell_in {[ "v" := Dataset.VJson (Json.JStr "x") ]} (λ text, Ok text)
    [Json.JNull; Json.JNull] ∅
  = Raise (TypeError "Object of type set is not JSON serializable").
Proof. by vm_compute. Qed.

(** ** The write statement and the encoder *)




(** The same run, the file spelled out. *)
Example write_file_set_after_record :
  Dump.write_file (Ok tt)
    [Dataset.record "ok" "b"; Dataset.VSet [Dataset.VJson (Json.JStr "x")]] ∅
    = (<[Dataset.output_file := "[
  {
    " +:+ Layout.in_quotes "prompt" +:+ ": " +:+ Layout.in_quotes "ok" +:+ ",
    " +:+ Layout.in_quotes "completion" +:+ ": " +:+ Layout.in_quotes "b" +:+ "
  },
  "]> ∅,
       Raise (TypeError "Object of type set is not JSON serializable")).
Proof. reflexivity. Qed.

(** When the file cannot be opened nothing is written. *)
Example write_file_not_opened :
  Dump.write_file (Raise (OSError "No such file or directory"))
    [Dataset.record "ok" "b"] ∅
    = (∅, Raise (OSError "No such file or directory")).
Proof. reflexivity. Qed.



Lemma list_ascii_of_string_app (s t : string) :
  list_ascii_of_string (s +:+ t) = list_ascii_of_string s ++ list_ascii_of_string t.
Proof.
  induction s as [|c s IH]; [done|].
  rewrite string_app_cons. simpl. by rewrite IH.
Qed.

Lemma escape_char_printable c :
  forallb (λ x, 32 <=? nat_of_ascii x) (list_ascii_of_string (Json.escape_char c))
    = true.
Proof. destruct c as [[] [] [] [] [] [] [] []]; reflexivity. Qed.

(** X14: an escaped text holds no control character, so no line break of
    its own: whatever the text, it is written on one line, and the line
    breaks of the file are those of the layout. *)
Theorem escape_no_control_character (s : string) :
  Forall (λ c, 32 ≤ nat_of_ascii c) (list_ascii_of_string (Json.escape s)).
Proof.
  induction s as [|c s IH]; [constructor|].
  cbn [Json.escape]. rewrite list_ascii_of_string_app. apply Forall_app.
  split; [|done].
  pose proof (escape_char_printable c) as Hc.
  apply Forall_forall. intros x Hx.
  rewrite forallb_forall in Hc. apply Nat.leb_le, Hc.
  by apply list_elem_of_In.
Qed.

Lemma unescape_escape_char c t :
  unescape (Json.escape_char c +:+ t) = String c (unescape t).
Proof. destruct c as [[] [] [] [] [] [] [] []]; reflexivity. Qed.

Lemma unescape_escape s : unescape (Json.escape s) = s.
Proof.
  induction s as [|c s IH]; [done|].
  cbn [Json.escape]. by rewrite unescape_escape_char, IH.
Qed.

(** X15: escaping loses nothing: two texts that are written the same are
    the same text. *)
Theorem escape_injective (s1 s2 : string) :
  Json.escape s1 = Json.escape s2 → s1 = s2.
Proof.
  intros Heq. rewrite <- (unescape_escape s1), <- (unescape_escape s2).
  by rewrite Heq.
Qed.

(** A text with a quote, a backslash, a line break and an accented letter. *)
Lemma escape_injective_witness :
  let s := String Json.quote (String Json.backslash (String Json.newline "é")) in
  Json.escape s = Json.escape s ∧ unescape (Json.escape s) = s.
Proof.
  intros s. split; [reflexivity|].
  rewrite (escape_injective (unescape (Json.escape s)) s); [reflexivity|].
  reflexivity.
Defined.

(** ** The training budget for other arguments *)

Lemma ceil_div_pos a b : 1 ≤ a → 1 ≤ b → 1 ≤ Trainer.ceil_div a b.
Proof.
  intros Ha Hb. unfold Trainer.ceil_div. div_bounds (a + b - 1) b. nia.
Qed.

Lemma loss_steps_state_at args g :
  Trainer.loss_steps (Trainer.finish (Trainer.state_at args g))
    = filter (λ s, s mod Trainer.logging_steps args = 0) (seq 1 g).
Proof.
  unfold Trainer.loss_steps, Trainer.finish, Trainer.state_at.
  cbn [Trainer.log_history Trainer.global_step].
  rewrite omap_app. cbn [omap list_omap]. rewrite app_nil_r.
  induction g as [|g IH]; [done|].
  rewrite seq_S, flat_map_app, omap_app, filter_app, IH. f_equal.
  cbn [flat_map]. rewrite app_nil_r. unfold Trainer.records_at.
  rewrite omap_app. cbn [filter list_filter].
  replace (1 + g) with (S g) by lia.
  repeat case_decide; done.
Qed.

(** X16: whatever positive [max_steps] is given, and whatever the number of
    epochs, a run on a non-empty train set makes exactly [max_steps] updates
    and writes a training loss at exactly the multiples of [logging_steps]
    up to there (batch size, accumulation and the two intervals being at
    least 1). *)
Theorem train_stops_at_any_max_steps (args : Trainer.TrainingArguments) (n : nat) :
  (0 < Trainer.max_steps args)%Z →
  1 ≤ n →
  1 ≤ Trainer.per_device_train_batch_size args →
  1 ≤ Trainer.gradient_accumulation_steps args →
  1 ≤ Trainer.logging_steps args →
  1 ≤ Trainer.eval_steps args →
  Trainer.global_step (Trainer.train args n) = Z.to_nat (Trainer.max_steps args) ∧
  Trainer.loss_steps (Trainer.train args n)
    = filter (λ s, s mod Trainer.logging_steps args = 0)
             (seq 1 (Z.to_nat (Trainer.max_steps args))).
Proof.
  intros Hmax Hn Hb Hga _ _.
  assert (Trainer.train args n
          = Trainer.finish (Trainer.state_at args (Z.to_nat (Trainer.max_steps args))))
    as ->; [|split; [done | apply loss_steps_state_at]].
  unfold Trainer.train, Trainer.total_steps, Trainer.epochs,
    Trainer.num_update_steps_per_epoch.
  apply Z.ltb_lt in Hmax as Hmax'. rewrite Hmax'.
  set (M := Z.to_nat (Trainer.max_steps args)).
  assert (1 ≤ M) as HM by (subst M; lia).
  set (u := Trainer.updates_per_epoch args n).
  assert (1 ≤ u) as Hu.
  { subst u. unfold Trainer.updates_per_epoch, Trainer.len_dataloader.
    by repeat apply ceil_div_pos. }
  rewrite Nat.max_l by lia.
  change {| Trainer.global_step := 0; Trainer.log_history := [] |}
    with (Trainer.state_at args 0).
  rewrite training_loop_state_at by lia. do 2 f_equal.
  apply Nat.min_r. div_bounds M u.
  destruct (0 <? M mod u) eqn:Hm.
  - apply Nat.ltb_lt in Hm. nia.
  - apply Nat.ltb_ge in Hm. nia.
Qed.

(** Seven updates over three examples in batches of two, logged every
    third: updates 3 and 6 are logged. *)
Lemma train_stops_at_any_max_steps_witness :
  let args := {| Trainer.per_device_train_batch_size := 2;
                 Trainer.gradient_accumulation_steps := 1;
                 Trainer.eval_steps := 4;
                 Trainer.num_train_epochs := 1;
                 Trainer.max_steps := 7;
                 Trainer.logging_steps := 3 |} in
  Trainer.global_step (Trainer.train args 3) = 7 ∧
  Trainer.loss_steps (Trainer.train args 3) = [3; 6].
Proof.
  intros args.
  destruct (train_stops_at_any_max_steps args 3) as [Hg Hl];
    [reflexivity | lia | simpl; lia | simpl; lia | simpl; lia | simpl; lia |].
  split; [exact Hg|]. rewrite Hl. reflexivity.
Defined.

(** X17: with the notebook's arguments the log of a run on a non-empty train
    set is, for each of the steps 10, 20, ..., 250, the training loss
    followed at once by the evaluation loss, and the summary at the end: the
    evaluation data is gone through 25 times. *)
Theorem train_log_history (n : nat) :
  1 ≤ n →
  Trainer.log_history (Trainer.train Trainer.training_arguments n)
    = flat_map (λ k, [Trainer.LossLog (10 * k); Trainer.EvalLog (10 * k)])
               (seq 1 25)
      ++ [Trainer.TrainSummary 250].
Proof. intros Hn. rewrite train_notebook by done. by vm_compute. Qed.

Lemma train_log_history_witness :
  1 ≤ 4000 ∧
  length (Trainer.log_history (Trainer.train Trainer.training_arguments 4000)) = 51.
Proof.
  assert (1 ≤ 4000) as Hn by lia. split; [exact Hn|].
  rewrite (train_log_history 4000 Hn). reflexivity.
Defined.

(** ** Formatting and generation *)

Lemma contains_app_false sep (s t : string) :
  Py.contains sep s = false → Py.contains sep (s +:+ t) = Py.contains sep t.
Proof.
  induction s as [|c s IH]; [done|]. rewrite string_app_cons. cbn [Py.contains].
  case_decide; [done|]. exact IH.
Qed.

(** Literal text is copied and the rest of the template formatted. *)
Lemma format_from_literal kwargs (lit rest : string) :
  no_braces lit →
  Py.format_from None kwargs (lit +:+ rest)
    = (out ← Py.format_from None kwargs rest; Ok (lit +:+ out)).
Proof.
  intros [Hopen Hclose]. induction lit as [|c lit IH].
  - rewrite string_app_nil_l. by destruct (Py.format_from None kwargs rest).
  - cbn [Py.contains] in Hopen, Hclose.
    destruct (decide (c = "{"%char)) as [|Hc1]; [done|].
    destruct (decide (c = "}"%char)) as [|Hc2]; [done|].
    rewrite string_app_cons. cbn [Py.format_from].
    rewrite (decide_False (P := c = "{"%char)) by done.
    rewrite (decide_False (P := c = "}"%char)) by done.
    rewrite IH by done.
    by destruct (Py.format_from None kwargs rest).
Qed.

(** Inside braces the name is read up to the closing brace and looked up. *)
Lemma format_from_field kwargs (acc name rest : string) :
  no_braces name →
  Py.format_from (Some acc) kwargs (name +:+ String "}" rest)
    = (v ← Py.get_field kwargs (acc +:+ name);
       out ← Py.format_from None kwargs rest; Ok (v +:+ out)).
Proof.
  revert acc. induction name as [|c name IH]; intros acc [Hopen Hclose].
  - rewrite string_app_nil_l, string_app_nil_r. cbn [Py.format_from].
    by rewrite decide_True by done.
  - cbn [Py.contains] in Hopen, Hclose.
    destruct (decide (c = "{"%char)) as [|Hc1]; [done|].
    destruct (decide (c = "}"%char)) as [|Hc2]; [done|].
    rewrite string_app_cons. cbn [Py.format_from].
    rewrite (decide_False (P := c = "}"%char)) by done.
    rewrite (decide_False (P := c = "{"%char)) by done.
    rewrite IH by done. by rewrite string_app_assoc.
Qed.

(** An opening brace that is not doubled starts a field. *)
Lemma format_from_open kwargs (t : string) :
  (∀ d r, t = String d r → d ≠ "{"%char) →
  Py.format_from None kwargs (String "{" t)
    = Py.format_from (Some "") kwargs t.
Proof.
  intros Ht. cbn [Py.format_from]. rewrite decide_True by done.
  destruct t as [|d r]; [done|].
  rewrite (decide_False (P := d = "{"%char)); [done | by eapply Ht].
Qed.

Lemma name_char_no_brace c :
  is_letter c || Py.is_digit c = true → c ≠ "{"%char ∧ c ≠ "}"%char.
Proof. destruct c as [[] [] [] [] [] [] [] []]; done. Qed.

Lemma letter_no_digit c : is_letter c = true → Py.is_digit c = false.
Proof. destruct c as [[] [] [] [] [] [] [] []]; done. Qed.

Lemma all_name_chars_no_braces s : all_name_chars s = true → no_braces s.
Proof.
  induction s as [|c s IH]; [done|]. cbn [all_name_chars].
  intros [Hc Hs]%andb_prop. destruct (name_char_no_brace c Hc) as [H1 H2].
  destruct (IH Hs) as [IH1 IH2]. split; cbn [Py.contains].
  - by rewrite decide_False.
  - by rewrite decide_False.
Qed.

(** X18: a template of literal text around one field named by an ASCII
    identifier, no braces elsewhere, is filled by putting the value given
    for the field in its place, as it is, braces and all; if no value is
    given for the field the name is reported as a [KeyError]. *)
Theorem format_identifier_field (lit1 name lit2 : string)
    (kwargs : list (string * string)) :
  no_braces lit1 → is_identifier name = true → no_braces lit2 →
  Py.format (lit1 +:+ String "{" (name +:+ String "}" lit2)) kwargs
    = match list_find (λ kv, kv.1 = name) kwargs with
      | Some (_, (_, v)) => Ok (lit1 +:+ v +:+ lit2)
      | None => Raise (KeyError name)
      end.
Proof.
  intros H1 Hname H2. unfold Py.format.
  rewrite format_from_literal by done.
  destruct name as [|c name]; [done|].
  cbn [is_identifier] in Hname. apply andb_prop in Hname as [Hc Hrest].
  assert (no_braces (String c name)) as Hnb.
  { apply all_name_chars_no_braces. cbn [all_name_chars].
    by rewrite Hc, Hrest. }
  assert (c ≠ "{"%char) as Hc1.
  { apply name_char_no_brace. by rewrite Hc. }
  assert (Py.get_field kwargs (String c name)
          = match list_find (λ kv, kv.1 = String c name) kwargs with
            | Some (_, (_, v)) => Ok v
            | None => Raise (KeyError (String c name))
            end) as Hget.
  { unfold Py.get_field. cbn [Py.all_digits].
    by rewrite (letter_no_digit c Hc). }
  pose proof (format_from_field kwargs "" (String c name) lit2 Hnb) as Hfield.
  rewrite string_app_nil_l, Hget in Hfield.
  rewrite format_from_open, Hfield.
  2:{ intros d r. rewrite string_app_cons. by intros [= <- _]. }
  pose proof (format_from_literal kwargs lit2 "" H2) as Hlit.
  cbn [Py.format_from mbind result_bind] in Hlit.
  rewrite string_app_nil_r in Hlit.
  destruct (list_find (λ kv, kv.1 = String c name) kwargs) as [[i [k v]]|];
    [|done].
  cbn [mbind result_bind]. rewrite Hlit. reflexivity.
Qed.

(** The notebook's template, and a query with braces in it. *)
Lemma format_identifier_field_witness :
  Generation.prompt_template
    = Generation.template_head
      +:+ String "{" ("query" +:+ String "}" Generation.template_tail) ∧
  Py.format Generation.prompt_template [("query", "What is {x}?")]
    = Ok (Generation.template_head +:+ "What is {x}?"
            +:+ Generation.template_tail).
Proof.
  assert (Generation.prompt_template
          = Generation.template_head
            +:+ String "{" ("query" +:+ String "}" Generation.template_tail))
    as Htemplate by reflexivity.
  split; [exact Htemplate|]. rewrite Htemplate.
  rewrite (format_identifier_field Generation.template_head "query"
             Generation.template_tail [("query", "What is {x}?")]);
    [reflexivity | by split | reflexivity | by split].
Defined.

(** What [str.format] does with fields that are not names: an empty or a
    numbered field looks among the positional arguments, of which the
    notebook passes none; a number past the interpreter's index range, a
    brace left open, a closing brace alone and a brace inside a field are
    refused; doubled braces stand for themselves. *)
Example format_other_fields :
  Py.format "a{}b" [("q", "v")] = Raise IndexError ∧
  Py.format "a{0}b" [("q", "v")] = Raise IndexError ∧
  Py.format "a{9223372036854775808}b" [("q", "v")]
    = Raise (ValueError "Too many decimal digits in format string") ∧
  Py.format "a{q" [("q", "v")]
    = Raise (ValueError "expected '}' before end of string") ∧
  Py.format "a}b" [("q", "v")]
    = Raise (ValueError "Single '}' encountered in format string") ∧
  Py.format "a{q{x}b" [("q", "v")]
    = Raise (ValueError "unexpected '{' in field name") ∧
  Py.format "a{{q}}b" [("q", "v")] = Ok "a{q}b" ∧
  Py.format "a{ }b" [("q", "v")] = Raise (KeyError " ").
Proof. repeat split; reflexivity. Qed.

(** X19: the check of the base model in cell 2.2 prints the text of the
    prompt's ids, special tokens included, followed by the text of at most
    32 new tokens, whatever the tokenizer and the model. *)
Theorem base_model_check_prints_prompt `{CausalLM} (smp : sampler) :
  ∃ new rest,
    generate smp (tokenize input_text) 32 eos_token_id
      = (tokenize input_text ++ new) :: rest ∧
    length new ≤ 32 ∧
    base_model_check smp
      = Ok (detokenize (tokenize input_text) +:+ detokenize new).
Proof.
  destruct (generate_extends smp (tokenize input_text) 32 eos_token_id)
    as (new & rest & Hgen & Hlen).
  exists new, rest. repeat split; try done.
  unfold base_model_check. cbv zeta. rewrite Hgen.
  cbn [Py.index lookup list_lookup mbind result_bind].
  unfold Generation.decode. by rewrite detokenize_app.
Qed.

(** With the byte-level tokenizer the printed text starts with the
    begin-of-sequence marker. *)
Lemma base_model_check_prints_prompt_witness :
  ∃ new,
    base_model_check (H0 := toy_model) tt
      = Ok ("<bos>Ask a question about Overfitting/Underfitting."
            +:+ detokenize new).
Proof.
  destruct (base_model_check_prints_prompt (H0 := toy_model) tt)
    as (new & rest & _ & _ & Hres).
  exists new. exact Hres.
Defined.
